(** * Refund bot: a shallow embedding of [app.py] and its refund handlers

    The development models the two refund entry points of the Slack bot,
    [refund_command] (the [/refund] slash command) and
    [handle_refund_submission] (the [refund_modal] view submission), together
    with the fragments of the Python runtime they rely on, and states the
    properties of the specification against these definitions.

    Conventions.
    - A Python [str] is a [string]: the sequence of the bytes of its UTF-8
      encoding, as Rocq reads a string literal.
    - External services (the payment processor and the chat platform) are an
      environment [env] of functions from a call to its result; every call a
      handler makes is recorded, with its result, in the trace it returns.
    - A Python exception is a value of [exn]; a handler is a computation in
      the monad [M] of traces and exceptions.
    - The string methods are exact on ASCII text ([strip] also knows the
      white space of the other planes); [int] reads ASCII digits; the
      division and the [.2f] format are the IEEE 754 binary64 operations,
      computed in integer arithmetic. *)

From Stdlib Require Import String Ascii List ZArith Lia Bool DecimalString.
Import ListNotations.

Local Open Scope Z_scope.
Local Open Scope list_scope.
Local Open Scope string_scope.

(** ** Exceptions

    The handlers distinguish three classes: the processor's
    [InvalidRequestError], any other [StripeError], and any other
    [Exception]. Each carries the text [str(e)] renders. What is raised
    outside the [Exception] hierarchy (an interrupt, the exit of the
    interpreter) is no part of the model. *)

Inductive exn : Type :=
| InvalidRequestError (message : string)
| StripeError (message : string)
| PyError (message : string).

Definition str_exn (e : exn) : string :=
  match e with
  | InvalidRequestError m | StripeError m | PyError m => m
  end.

(** ** Values of the event payloads

    The payloads are JSON objects whose leaves the handlers read are strings
    or null. *)

#[local] Set Warnings "-register-all".
Inductive pyval : Type :=
| PNone
| PStr (s : string)
| PDict (items : list (string * pyval)).
#[local] Set Warnings "register-all".

Definition dict : Type := list (string * pyval).

(** ** Text and number primitives of the Python runtime *)

Module Py.

(** [sub in s] on strings. *)
Fixpoint contains (sub s : string) : bool :=
  prefix sub s ||
  match s with
  | EmptyString => false
  | String _ rest => contains sub rest
  end.

Definition code (c : ascii) : N := N_of_ascii c.

Definition between (lo hi : N) (c : ascii) : bool :=
  (N.leb lo (code c) && N.leb (code c) hi)%bool.

Definition byte_is (n : N) (c : ascii) : bool := N.eqb (code c) n.

(** One-byte characters for which [str.isspace] holds: U+0009..U+000D,
    U+001C..U+001F and U+0020. *)
Definition space1 (c : ascii) : bool :=
  between 9 13 c || between 28 31 c || byte_is 32 c.

(** The one-byte characters the integer parser skips (C [isspace]): unlike
    [str.strip] it does not skip U+001C..U+001F. *)
Definition c_space1 (c : ascii) : bool :=
  between 9 13 c || byte_is 32 c.

(** Two-byte encodings of white space: U+0085 and U+00A0. *)
Definition space2 (a b : ascii) : bool :=
  byte_is 194 a && (byte_is 133 b || byte_is 160 b).

(** Three-byte encodings of white space: U+1680, U+2000..U+200A, U+2028,
    U+2029, U+202F, U+205F and U+3000. *)
Definition space3 (a b c : ascii) : bool :=
  (byte_is 225 a && byte_is 154 b && byte_is 128 c)
  || (byte_is 226 a && byte_is 128 b
      && (between 128 138 c || byte_is 168 c || byte_is 169 c || byte_is 175 c))
  || (byte_is 226 a && byte_is 129 b && byte_is 159 c)
  || (byte_is 227 a && byte_is 128 b && byte_is 128 c).

(** Drops leading white space, given the recognisers of one-, two- and
    three-byte characters. *)
Fixpoint drop_spaces (s1 : ascii -> bool) (s2 : ascii -> ascii -> bool)
    (s3 : ascii -> ascii -> ascii -> bool) (s : string) : string :=
  match s with
  | EmptyString => EmptyString
  | String a r1 =>
      if s1 a then drop_spaces s1 s2 s3 r1
      else
        match r1 with
        | EmptyString => s
        | String b r2 =>
            if s2 a b then drop_spaces s1 s2 s3 r2
            else
              match r2 with
              | EmptyString => s
              | String c r3 =>
                  if s3 a b c then drop_spaces s1 s2 s3 r3 else s
              end
        end
  end.

Definition reverse (s : string) : string :=
  string_of_list_ascii (rev (list_ascii_of_string s)).

Definition strip_with (s1 : ascii -> bool) (s : string) : string :=
  let front := drop_spaces s1 space2 space3 s in
  reverse
    (drop_spaces s1 (fun a b => space2 b a) (fun a b c => space3 c b a)
       (reverse front)).

(** [s.strip()]. *)
Definition strip (s : string) : string := strip_with space1 s.

(** [s.startswith(p)]. *)
Definition startswith (p s : string) : bool := prefix p s.

Definition is_lower (c : ascii) : bool := between 97 122 c.
Definition is_upper (c : ascii) : bool := between 65 90 c.
Definition is_cased (c : ascii) : bool := is_lower c || is_upper c.

Definition upper_char (c : ascii) : ascii :=
  if is_lower c then ascii_of_N (code c - 32) else c.

Definition lower_char (c : ascii) : ascii :=
  if is_upper c then ascii_of_N (code c + 32) else c.

(** [s.upper()]; exact on ASCII text, bytes of longer characters are kept. *)
Fixpoint upper (s : string) : string :=
  match s with
  | EmptyString => EmptyString
  | String c r => String (upper_char c) (upper r)
  end.

(** [s.title()]: a cased character is upper-cased when it follows an uncased
    one (or starts the string) and lower-cased otherwise. Exact on ASCII. *)
Fixpoint title_from (previous_is_cased : bool) (s : string) : string :=
  match s with
  | EmptyString => EmptyString
  | String c r =>
      String (if previous_is_cased then lower_char c else upper_char c)
             (title_from (is_cased c) r)
  end.

Definition title (s : string) : string := title_from false s.

(** [str(n)] for an integer. *)
Definition str_int (n : Z) : string := NilZero.string_of_int (Z.to_int n).

Definition is_digit (c : ascii) : bool := between 48 57 c.

(** The digits of an integer literal: decimal digits, single underscores
    allowed between two digits. *)
Fixpoint digits_value (acc : Z) (after_digit : bool) (s : string) : option Z :=
  match s with
  | EmptyString => if after_digit then Some acc else None
  | String c r =>
      if is_digit c then
        digits_value (10 * acc + Z.of_N (code c - 48)) true r
      else if byte_is 95 c then
        (if after_digit then digits_value acc false r else None)
      else None
  end.

(** The value [int(s)] computes for a string, [None] when it raises
    [ValueError]: surrounding white space, an optional sign, then digits.
    Decimal digits of other scripts are not decoded (the model is exact on
    text whose digits are ASCII), and the interpreter's configurable cap on
    the number of digits is not applied. *)
Definition int_of_string (s : string) : option Z :=
  match strip_with c_space1 s with
  | String "+" r => digits_value 0 false r
  | String "-" r => option_map Z.opp (digits_value 0 false r)
  | t => digits_value 0 false t
  end.

(** *** Binary floating point

    A finite double is [(-1)^negative * mantissa * 2^exponent] with
    [0 <= mantissa <= 2^53] and [-1074 <= exponent]. *)

Record float : Type := mkFloat {
  negative : bool;
  mantissa : Z;
  exponent : Z
}.

Definition pow2 (k : Z) : Z := 2 ^ Z.max 0 k.

(** [num / den] rounded to the nearest integer, ties to even
    ([0 <= num], [0 < den]). *)
Definition round_half_even (num den : Z) : Z :=
  let q := num / den in
  let r := num mod den in
  if (2 * r <? den)%Z then q
  else if (den <? 2 * r)%Z then q + 1
  else if Z.even q then q else q + 1.

(** The largest [k] with [2^k <= p / q], for positive [p] and [q]. *)
Definition floor_log2_ratio (p q : Z) : Z :=
  let s := Z.log2 p - Z.log2 q in
  if (q * pow2 s <=? p * pow2 (- s))%Z then s else s - 1.

(** [a / b] on integers: the double nearest to the exact quotient (ties to
    even, gradual underflow), [ZeroDivisionError] or [OverflowError]. *)
Definition truediv (a b : Z) : exn + float :=
  if (b =? 0)%Z then inl (PyError "division by zero")
  else
    let neg := xorb (a <? 0)%Z (b <? 0)%Z in
    if (a =? 0)%Z then inr (mkFloat neg 0 0)
    else
      let p := Z.abs a in
      let q := Z.abs b in
      let e := Z.max (floor_log2_ratio p q - 52) (-1074) in
      let m := round_half_even (p * pow2 (- e)) (q * pow2 e) in
      if (0 <=? e)%Z && (2 ^ 1024 <=? m * 2 ^ e)%Z then
        inl (PyError "integer division result too large for a float")
      else inr (mkFloat neg m e).

Definition two_digits (v : Z) : string :=
  if (v <? 10)%Z then "0" ++ str_int v else str_int v.

(** [f"{x:.2f}"]: the decimal with two fractional digits nearest to the
    exact value of [x], ties to even. *)
Definition format_2f (x : float) : string :=
  let cents :=
    round_half_even (mantissa x * 100 * pow2 (exponent x))
                    (pow2 (- exponent x)) in
  (if negative x then "-" else "")
  ++ str_int (cents / 100) ++ "." ++ two_digits (cents mod 100).

(** *** Operations on payload values *)

Fixpoint lookup (d : dict) (key : string) : option pyval :=
  match d with
  | [] => None
  | (k, v) :: rest => if String.eqb k key then Some v else lookup rest key
  end.

(** [d.get(key)] and [d.get(key, default)] on a dict. *)
Definition get (d : dict) (key : string) (default : pyval) : pyval :=
  match lookup d key with
  | Some v => v
  | None => default
  end.

(** [str(KeyError(key))]: the key between quotes (the keys the handlers use
    need no escaping). *)
Definition key_error (key : string) : exn := PyError ("'" ++ key ++ "'").

(** [d[key]] on a dict. *)
Definition item (d : dict) (key : string) : exn + pyval :=
  match lookup d key with
  | Some v => inr v
  | None => inl (key_error key)
  end.

Definition type_name (v : pyval) : string :=
  match v with
  | PNone => "NoneType"
  | PStr _ => "str"
  | PDict _ => "dict"
  end.

(** [v[key]] with a string key (the [TypeError] texts are those of
    Python 3.11). *)
Definition getitem (v : pyval) (key : string) : exn + pyval :=
  match v with
  | PDict d => item d key
  | PStr _ => inl (PyError "string indices must be integers, not 'str'")
  | PNone => inl (PyError "'NoneType' object is not subscriptable")
  end.

(** Truth value of [v] in a condition. *)
Definition truthy (v : pyval) : bool :=
  match v with
  | PNone => false
  | PStr s => negb (String.eqb s "")
  | PDict d => match d with [] => false | _ => true end
  end.

(** [v.strip()]. *)
Definition strip_method (v : pyval) : exn + string :=
  match v with
  | PStr s => inr (strip s)
  | _ => inl (PyError ("'" ++ type_name v ++ "' object has no attribute 'strip'"))
  end.

Section Repr.

(** [repr], for the two places that need it: the text of a dict inside a
    formatted string and the literal quoted by [int]'s [ValueError]. Its
    quoting rules play no part in what follows, so it is left open. *)
Variable repr : pyval -> string.

(** [str(v)], as an f-string renders [{v}]. *)
Definition str (v : pyval) : string :=
  match v with
  | PNone => "None"
  | PStr s => s
  | PDict _ => repr v
  end.

(** [int(v)]. *)
Definition int (v : pyval) : exn + Z :=
  match v with
  | PStr s =>
      match int_of_string s with
      | Some n => inr n
      | None =>
          inl (PyError ("invalid literal for int() with base 10: " ++ repr v))
      end
  | _ =>
      inl (PyError
             ("int() argument must be a string, a bytes-like object or a real number, not '"
              ++ type_name v ++ "'"))
  end.

End Repr.

End Py.

(** ** Messages sent to the chat platform *)

Inductive text_object : Type :=
| Mrkdwn (text : string)
| PlainText (text : string).

Inductive block : Type :=
| Header (text : text_object)
| SectionText (text : text_object)
| SectionFields (fields : list text_object)
| Divider
| Context (elements : list text_object).

(** The dict passed to [respond]; [replace_original] is [None] when the key
    is absent. *)
Record response : Type := mkResponse {
  response_type : string;
  replace_original : option bool;
  blocks : list block
}.

(** ** Objects of the payment processor *)

Module Refund.
(** The attributes of a refund object the handlers read. *)
Record t : Type := make {
  id : string;
  amount : Z;
  currency : string;
  status : string;
  created : Z
}.
End Refund.

Module RefundCreate.
(** The keyword arguments of [stripe.Refund.create]; [None] for an argument
    a call site does not pass. *)
Record params : Type := make {
  charge : option string;
  payment_intent : option pyval;
  amount : option Z;
  reason : string;
  metadata : dict
}.
End RefundCreate.

(** The charge object [stripe.Charge.retrieve] returns; the handler binds it
    and never reads it. *)
Inductive charge_object : Type := Charge (fields : dict).

(** ** External calls, environments and traces *)

Inductive slack_call : Type :=
| Ack
| Respond (message : response)
| ChatPostMessage (channel : pyval) (text : string) (blocks : option (list block)).

Inductive stripe_call : Type :=
| ChargeRetrieve (charge_id : string)
| RefundCreate (params : RefundCreate.params).

Inductive call : Type :=
| Slack (c : slack_call)
| Stripe (c : stripe_call).

Inductive reply : Type :=
| Delivered
| GotCharge (c : charge_object)
| GotRefund (r : Refund.t).

(** A call together with what it returned or raised. *)
Definition event : Type := (call * (exn + reply))%type.
Definition trace : Type := list event.

(** The world outside the process. [api_key] is [stripe.api_key], read from
    the [STRIPE_SECRET_KEY] environment variable at start-up. Within one run
    of a handler no call is issued twice with the same arguments, so a
    function of the arguments describes every behaviour of the services. *)
Record env : Type := mkEnv {
  api_key : option string;
  charge_retrieve : string -> exn + charge_object;
  refund_create : RefundCreate.params -> exn + Refund.t;
  slack : slack_call -> option exn
}.

(** ** The monad of handlers: a trace and a value or an exception *)

Definition M (A : Type) : Type := (trace * (exn + A))%type.

Definition ret {A} (a : A) : M A := ([], inr a).

Definition bind {A B} (m : M A) (k : A -> M B) : M B :=
  match m with
  | (t, inl e) => (t, inl e)
  | (t, inr a) => let (t', r) := k a in ((t ++ t')%list, r)
  end.

(** A pure operation that may raise. *)
Definition lift {A} (r : exn + A) : M A := ([], r).

(** [try: body except ...: handler]: an exception of [body] runs [handler];
    what [handler] raises is not caught again. *)
Definition try_except {A} (body : M A) (handler : exn -> M A) : M A :=
  match body with
  | (t, inl e) => let (t', r) := handler e in ((t ++ t')%list, r)
  | (t, inr a) => (t, inr a)
  end.

Declare Scope monad_scope.
Delimit Scope monad_scope with monad.
Notation "x <- m ;; k" := (bind m (fun x => k))
  (at level 61, m at next level, right associativity) : monad_scope.
Notation "m ;; k" := (bind m (fun _ => k))
  (at level 61, right associativity) : monad_scope.
Local Open Scope monad_scope.

Definition run_trace {A} (m : M A) : trace := fst m.
Definition run_result {A} (m : M A) : exn + A := snd m.

(** ** The handlers of [app.py] *)

(** The line feed an escape [\n] of the source denotes. *)
Definition nl : string := String (ascii_of_N 10) EmptyString.

Section Handlers.

Variable repr : pyval -> string.
Variable E : env.

(** *** Capabilities the framework passes to a handler *)

Definition call_slack (c : slack_call) : M unit :=
  match slack E c with
  | None => ([(Slack c, inr Delivered)], inr tt)
  | Some e => ([(Slack c, inl e)], inl e)
  end.

Definition ack : M unit := call_slack Ack.

Definition respond (message : response) : M unit :=
  call_slack (Respond message).

Definition chat_postMessage (channel : pyval) (text : string)
    (blocks : option (list block)) : M unit :=
  call_slack (ChatPostMessage channel text blocks).

(** *** The processor's client library *)

Definition stripe_Charge_retrieve (charge_id : string) : M charge_object :=
  match charge_retrieve E charge_id with
  | inr c => ([(Stripe (ChargeRetrieve charge_id), inr (GotCharge c))], inr c)
  | inl e => ([(Stripe (ChargeRetrieve charge_id), inl e)], inl e)
  end.

Definition stripe_Refund_create (params : RefundCreate.params) : M Refund.t :=
  match refund_create E params with
  | inr r => ([(Stripe (RefundCreate params), inr (GotRefund r))], inr r)
  | inl e => ([(Stripe (RefundCreate params), inl e)], inl e)
  end.

(** *** [refund_command]: the [/refund] slash command *)

Definition usage : string := "Usage: `/refund ch_xxxxxxxxxxxxx`".

Definition missing_charge_id_text : string :=
  "❌ Please provide a charge ID." ++ nl ++ nl ++ usage.

Definition invalid_charge_id_text : string :=
  "❌ Invalid charge ID format. Charge IDs must start with `ch_`."
  ++ nl ++ nl ++ usage.

Definition processing_message : response :=
  mkResponse "in_channel" None
    [SectionText (Mrkdwn "⏳ Processing refund...")].

(** The receipt of the slash command (lines 142-191). *)
Definition refund_command_receipt (refund : Refund.t) (charge_id : string)
    (refund_amount : Py.float) (currency : string) : list block :=
  [ Header (PlainText "💰 Refund Receipt");
    SectionFields
      [ Mrkdwn ("*Refund ID:*" ++ nl ++ Refund.id refund);
        Mrkdwn ("*Amount:*" ++ nl ++ "$" ++ Py.format_2f refund_amount
                ++ " " ++ currency);
        Mrkdwn ("*Status:*" ++ nl ++ Py.upper (Refund.status refund));
        Mrkdwn ("*Original Charge:*" ++ nl ++ charge_id);
        Mrkdwn ("*Reason:*" ++ nl ++ "Requested by customer");
        Mrkdwn ("*Timestamp:*" ++ nl ++ "<!date^"
                ++ Py.str_int (Refund.created refund)
                ++ "^{date_short} {time}|"
                ++ Py.str_int (Refund.created refund) ++ ">") ];
    Divider;
    Context
      [ Mrkdwn "🧪 *TEST MODE* - Refund will appear on the original payment method within 5-10 business days." ] ].

(** The body of the [try] statement (lines 124-198). *)
Definition refund_command_try (command : dict) (charge_id : string) : M unit :=
  charge <- stripe_Charge_retrieve charge_id ;;
  user_id <- lift (Py.item command "user_id") ;;
  channel_id <- lift (Py.item command "channel_id") ;;
  refund <- stripe_Refund_create
              (RefundCreate.make (Some charge_id) None None
                 "requested_by_customer"
                 [("slack_user_id", user_id); ("slack_channel_id", channel_id)]) ;;
  refund_amount <- lift (Py.truediv (Refund.amount refund) 100) ;;
  let currency := Py.upper (Refund.currency refund) in
  let receipt_blocks :=
    refund_command_receipt refund charge_id refund_amount currency in
  respond (mkResponse "in_channel" (Some true) receipt_blocks).

(** The text the [InvalidRequestError] clause chooses (lines 201-207). *)
Definition invalid_request_text (charge_id error_msg : string) : string :=
  if Py.contains "No such charge" error_msg then
    "❌ Charge ID `" ++ charge_id
    ++ "` not found. Please verify the charge ID is correct."
  else if Py.contains "already been refunded" error_msg then
    "❌ This charge has already been fully refunded."
  else "❌ Invalid request: " ++ error_msg.

Definition error_response (text : string) : response :=
  mkResponse "ephemeral" (Some true) [SectionText (Mrkdwn text)].

(** The text each of the three [except] clauses renders (lines 200-251). *)
Definition refund_command_error_text (charge_id : string) (e : exn)
    : string :=
  match e with
  | InvalidRequestError error_msg => invalid_request_text charge_id error_msg
  | StripeError msg => "❌ Stripe error: " ++ msg
  | PyError msg =>
      "❌ An error occurred while processing the refund: " ++ msg
  end.

(** The three [except] clauses: each replies with its text. *)
Definition refund_command_except (charge_id : string) (e : exn) : M unit :=
  respond (error_response (refund_command_error_text charge_id e)).

Definition refund_command (command : dict) : M unit :=
  ack ;;
  charge_id <- lift (Py.strip_method (Py.get command "text" (PStr ""))) ;;
  if String.eqb charge_id "" then
    respond (mkResponse "ephemeral" None
               [SectionText (Mrkdwn missing_charge_id_text)])
  else if negb (Py.startswith "ch_" charge_id) then
    respond (mkResponse "ephemeral" None
               [SectionText (Mrkdwn invalid_charge_id_text)])
  else
    respond processing_message ;;
    try_except (refund_command_try command charge_id)
               (refund_command_except charge_id).

(** *** [handle_refund_submission]: the [refund_modal] view submission *)

(** [view["state"]["values"][block_id][action_id]["value"]]. *)
Definition view_value (view : dict) (block_id action_id : string) : M pyval :=
  state <- lift (Py.item view "state") ;;
  values <- lift (Py.getitem state "values") ;;
  input <- lift (Py.getitem values block_id) ;;
  action <- lift (Py.getitem input action_id) ;;
  lift (Py.getitem action "value").

(** The receipt sent to the requester (lines 419-464). *)
Definition submission_receipt (refund : Refund.t) (refund_amount : Py.float)
    (payment_intent_id reason : pyval) : list block :=
  [ SectionText (Mrkdwn "✅ *Refund Processed Successfully*");
    SectionFields
      [ Mrkdwn ("*Refund ID:*" ++ nl ++ Refund.id refund);
        Mrkdwn ("*Amount:*" ++ nl ++ "$" ++ Py.format_2f refund_amount);
        Mrkdwn ("*Status:*" ++ nl ++ Py.title (Refund.status refund));
        Mrkdwn ("*Payment Intent:*" ++ nl ++ Py.str repr payment_intent_id) ];
    SectionText (Mrkdwn ("*Reason:* " ++ Py.str repr reason));
    Context
      [ Mrkdwn "Refund will appear on your original payment method within 5-10 business days." ] ].

Definition announcement_text (refund_amount : Py.float) (user_id : pyval)
    : string :=
  "Refund of $" ++ Py.format_2f refund_amount
  ++ " has been processed for <@" ++ Py.str repr user_id ++ ">".

Definition announcement_blocks (refund_amount : Py.float) (user_id : pyval)
    : list block :=
  [ SectionText
      (Mrkdwn ("✅ Refund of *$" ++ Py.format_2f refund_amount
               ++ "* processed for <@" ++ Py.str repr user_id ++ ">")) ].

(** The body of the [try] statement (lines 404-487). *)
Definition handle_refund_submission_try (body : dict)
    (user_id payment_intent_id amount reason : pyval) : M unit :=
  amount_int <- lift (Py.int repr amount) ;;
  refund <- stripe_Refund_create
              (RefundCreate.make None (Some payment_intent_id)
                 (Some amount_int) "requested_by_customer"
                 [("slack_user_id", user_id); ("reason", reason)]) ;;
  refund_amount <- lift (Py.truediv (Refund.amount refund) 100) ;;
  let receipt_blocks :=
    submission_receipt refund refund_amount payment_intent_id reason in
  chat_postMessage user_id
    ("Refund processed: $" ++ Py.format_2f refund_amount)
    (Some receipt_blocks) ;;
  if Py.truthy (Py.get body "channel" PNone) then
    channel <- lift (Py.item body "channel") ;;
    channel_id <- lift (Py.getitem channel "id") ;;
    chat_postMessage channel_id
      (announcement_text refund_amount user_id)
      (Some (announcement_blocks refund_amount user_id))
  else ret tt.

(** The [error_message] of the two [except] clauses (lines 489-502). *)
Definition submission_error_message (e : exn) : string :=
  match e with
  | InvalidRequestError msg | StripeError msg => "❌ Refund failed: " ++ msg
  | PyError msg =>
      "❌ An error occurred while processing the refund: " ++ msg
  end.

(** The two [except] clauses: each posts its message to the requester. *)
Definition handle_refund_submission_except (user_id : pyval) (e : exn)
    : M unit :=
  chat_postMessage user_id (submission_error_message e) None.

Definition handle_refund_submission (body view : dict) : M unit :=
  ack ;;
  user <- lift (Py.item body "user") ;;
  user_id <- lift (Py.getitem user "id") ;;
  payment_intent_id <- view_value view "payment_intent_input" "payment_intent_id" ;;
  amount <- view_value view "amount_input" "amount" ;;
  reason <- view_value view "reason_input" "reason" ;;
  try_except
    (handle_refund_submission_try body user_id payment_intent_id amount reason)
    (handle_refund_submission_except user_id).

End Handlers.

(** ** The other handlers of [app.py] *)

(** *** [handle_question_submission]: the [question_modal] view submission *)

Section QuestionHandler.

Variable repr : pyval -> string.
Variable E : env.

(** The [response] of line 308. *)
Definition question_response (question : pyval) : string :=
  "Thank you for your question: '" ++ Py.str repr question ++ "'" ++ nl ++ nl
  ++ "I'm currently being set up to provide AI-powered responses. Once the training data is available, I'll be able to help with support questions!".

Definition handle_question_submission (body view : dict) : M unit :=
  ack E ;;
  user <- lift (Py.item body "user") ;;
  user_id <- lift (Py.getitem user "id") ;;
  question <- view_value view "question_input" "question" ;;
  let response := question_response question in
  chat_postMessage E user_id response None.

End QuestionHandler.

(** *** Prompts and modals

    The dict literals of the source, as records: a key the source leaves out
    is [None]. *)

Module Button.
Record t : Type := make {
  text : text_object;
  style : option string;
  value : string;
  action_id : string
}.
End Button.

Inductive prompt_block : Type :=
| PromptSection (text : text_object)
| PromptActions (elements : list Button.t).

Module Input.
(** An [input] block with its [plain_text_input] element. *)
Record t : Type := make {
  block_id : string;
  action_id : string;
  multiline : option bool;
  placeholder : text_object;
  label : text_object
}.
End Input.

Module Modal.
Record t : Type := make {
  callback_id : string;
  title : text_object;
  submit : text_object;
  close : text_object;
  blocks : list Input.t
}.
End Modal.

(** *** The capabilities of the prompt handlers

    [say], [respond(blocks=...)] and [client.views_open] with the
    acknowledgement, traced like the calls of the refund handlers. *)

Module Ui.

Inductive call : Type :=
| Acknowledge
| Say (text : string)
| RespondBlocks (blocks : list prompt_block)
| ViewsOpen (trigger_id : pyval) (view : Modal.t).

(** What the chat platform answers to a call: [None] when it returns. *)
Definition platform : Type := call -> option exn.

Definition trace : Type := list (call * option exn).

Definition U (A : Type) : Type := (trace * (exn + A))%type.

Definition ret {A} (a : A) : U A := ([], inr a).

Definition bind {A B} (m : U A) (k : A -> U B) : U B :=
  match m with
  | (t, inl e) => (t, inl e)
  | (t, inr a) => let (t', r) := k a in ((t ++ t')%list, r)
  end.

Definition lift {A} (r : exn + A) : U A := ([], r).

Definition perform (P : platform) (c : call) : U unit :=
  match P c with
  | None => ([(c, None)], inr tt)
  | Some e => ([(c, Some e)], inl e)
  end.

Definition ack (P : platform) : U unit := perform P Acknowledge.

Definition say (P : platform) (text : string) : U unit := perform P (Say text).

Definition respond (P : platform) (blocks : list prompt_block) : U unit :=
  perform P (RespondBlocks blocks).

Definition views_open (P : platform) (trigger_id : pyval) (view : Modal.t)
    : U unit :=
  perform P (ViewsOpen trigger_id view).

Definition calls (t : trace) : list call := map fst t.

End Ui.

Declare Scope ui_scope.
Delimit Scope ui_scope with ui.
Notation "x <- m ;; k" := (Ui.bind m (fun x => k))
  (at level 61, m at next level, right associativity) : ui_scope.
Notation "m ;; k" := (Ui.bind m (fun _ => k))
  (at level 61, right associativity) : ui_scope.

(** *** [message_hello], [support_command] and the two button handlers *)

Section PromptHandlers.

Variable repr : pyval -> string.
Variable P : Ui.platform.

Definition message_hello (message : dict) : Ui.U unit :=
  (user <- Ui.lift (Py.item message "user") ;;
   Ui.say P ("Hey there <@" ++ Py.str repr user ++ ">! 👋"))%ui.

(** The [blocks] of [support_command] (lines 35-67). *)
Definition support_blocks : list prompt_block :=
  [ PromptSection
      (Mrkdwn "👋 Welcome to AI Support! How can I help you today?");
    PromptActions
      [ Button.make (PlainText "Ask a Question") None
          "ask_question" "ask_question_btn";
        Button.make (PlainText "Request Refund") (Some "danger")
          "request_refund" "request_refund_btn" ] ].

Definition support_command (command : dict) : Ui.U unit :=
  (Ui.ack P ;;
   Ui.respond P support_blocks)%ui.

(** The view of [handle_ask_question] (lines 261-295). *)
Definition question_modal : Modal.t :=
  Modal.make "question_modal"
    (PlainText "Ask AI Support") (PlainText "Submit") (PlainText "Cancel")
    [ Input.make "question_input" "question" (Some true)
        (PlainText "Enter your support question here...")
        (PlainText "Your Question") ].

Definition handle_ask_question (body : dict) : Ui.U unit :=
  (Ui.ack P ;;
   trigger_id <- Ui.lift (Py.item body "trigger_id") ;;
   Ui.views_open P trigger_id question_modal)%ui.

(** The view of [handle_refund_request] (lines 324-390). *)
Definition refund_modal : Modal.t :=
  Modal.make "refund_modal"
    (PlainText "Request Refund") (PlainText "Process Refund")
    (PlainText "Cancel")
    [ Input.make "payment_intent_input" "payment_intent_id" None
        (PlainText "pi_1234567890abcdef") (PlainText "Payment Intent ID");
      Input.make "amount_input" "amount" None
        (PlainText "e.g., 1999 (for $19.99)")
        (PlainText "Refund Amount (in cents)");
      Input.make "reason_input" "reason" (Some true)
        (PlainText "Please explain the reason for the refund...")
        (PlainText "Refund Reason") ].

Definition handle_refund_request (body : dict) : Ui.U unit :=
  (Ui.ack P ;;
   trigger_id <- Ui.lift (Py.item body "trigger_id") ;;
   Ui.views_open P trigger_id refund_modal)%ui.

End PromptHandlers.

(** *** The listeners the module registers (the decorators, in order) *)

Inductive listener_kind : Type := OnMessage | OnCommand | OnAction | OnView.

Inductive listener : Type :=
| MessageHello
| SupportCommand
| RefundCommand
| HandleAskQuestion
| HandleQuestionSubmission
| HandleRefundRequest
| HandleRefundSubmission.

Definition registrations : list (listener_kind * string * listener) :=
  [ (OnMessage, "hello", MessageHello);
    (OnCommand, "/support", SupportCommand);
    (OnCommand, "/refund", RefundCommand);
    (OnAction, "ask_question_btn", HandleAskQuestion);
    (OnView, "question_modal", HandleQuestionSubmission);
    (OnAction, "request_refund_btn", HandleRefundRequest);
    (OnView, "refund_modal", HandleRefundSubmission) ].

(** ** Notions the statements use *)

(** *** Reading a trace *)

Definition calls (t : trace) : list call := map fst t.

Fixpoint stripe_calls (t : trace) : list stripe_call :=
  match t with
  | [] => []
  | (Stripe c, _) :: rest => c :: stripe_calls rest
  | (Slack _, _) :: rest => stripe_calls rest
  end.

Fixpoint slack_calls (t : trace) : list slack_call :=
  match t with
  | [] => []
  | (Slack c, _) :: rest => c :: slack_calls rest
  | (Stripe _, _) :: rest => slack_calls rest
  end.





(** *** Sample environments and payloads *)

(** A stand-in for [repr] in the examples; it agrees with Python on strings
    free of quotes, backslashes and control characters. *)
Definition sample_repr (v : pyval) : string :=
  match v with
  | PNone => "None"
  | PStr s => "'" ++ s ++ "'"
  | PDict _ => "{...}"
  end.

(** A chat platform that delivers everything and a processor that answers
    every retrieve with an empty charge and every refund with [outcome]. *)
Definition sample_env (key : string) (outcome : exn + Refund.t) : env :=
  mkEnv (Some key) (fun _ => inr (Charge [])) (fun _ => outcome) (fun _ => None).

Definition sample_command (text : string) : dict :=
  [("text", PStr text); ("user_id", PStr "U1"); ("channel_id", PStr "C1")].

Definition sample_view (payment_intent_id amount reason : pyval) : dict :=
  [("state", PDict [("values", PDict
     [("payment_intent_input",
        PDict [("payment_intent_id", PDict [("value", payment_intent_id)])]);
      ("amount_input", PDict [("amount", PDict [("value", amount)])]);
      ("reason_input", PDict [("reason", PDict [("value", reason)])])])])].

Definition sample_body (channel : option string) : dict :=
  ("user", PDict [("id", PStr "U1")]) ::
  match channel with
  | Some c => [("channel", PDict [("id", PStr c)])]
  | None => []
  end.

Definition sample_refund (amount : Z) : Refund.t :=
  Refund.make "re_1" amount "usd" "succeeded" 1700000000.

(** A processor that knows no charge and refuses every refund. *)
Definition empty_processor_env : env :=
  mkEnv (Some "sk_test_1")
    (fun id => inl (InvalidRequestError ("No such charge: '" ++ id ++ "'")))
    (fun _ => inl (InvalidRequestError "Invalid positive integer"))
    (fun _ => None).

(** *** Validation of the charge id ([refund_command], lines 76-107) *)

(** The pattern [^ch_.+] of the specification: the prefix [ch_] followed by
    at least one character, which [.] takes to be other than a line feed. *)
Definition matches_charge_pattern (s : string) : bool :=
  match s with
  | String "c" (String "h" (String "_" (String c _))) => negb (Py.byte_is 10 c)
  | _ => false
  end.

(** The reply of the validation step to a trimmed charge id it rejects. *)
Definition rejection_text (charge_id : string) : string :=
  if String.eqb charge_id "" then missing_charge_id_text
  else invalid_charge_id_text.

(** *** Well-formed submissions of the refund modal *)

(** The submission carries the requester's id and the three input values. *)
Definition submitted (body view : dict)
    (user_id payment_intent_id amount reason : pyval) : Prop :=
  (exists user,
      Py.item body "user" = inr user /\ Py.getitem user "id" = inr user_id)
  /\ view_value view "payment_intent_input" "payment_intent_id"
     = ret payment_intent_id
  /\ view_value view "amount_input" "amount" = ret amount
  /\ view_value view "reason_input" "reason" = ret reason.

(** *** Mapping of exceptions to messages (lines 200-251 and 489-502) *)

(** The error taxonomy of the specification. *)
Inductive category : Type :=
| InvalidInput
| NotFound
| AlreadyRefunded
| InvalidRequest
| ProcessorError
| InternalError.

(** The category the specification assigns to an exception of the guarded
    region: by message content for a client-side invalid-request error, by
    class otherwise. *)
Definition classify (e : exn) : category :=
  match e with
  | InvalidRequestError m =>
      if Py.contains "No such charge" m then NotFound
      else if Py.contains "already been refunded" m then AlreadyRefunded
      else InvalidRequest
  | StripeError _ => ProcessorError
  | PyError _ => InternalError
  end.

(** A processor whose refund-create operation raises [e]. *)
Definition failing_refund_env (e : exn) : env :=
  mkEnv (Some "sk_test_1") (fun _ => inr (Charge [])) (fun _ => inl e)
    (fun _ => None).

(** *** Audience of the messages *)



(** *** The channel announcement of the modal flow (lines 473-487) *)

(** The refund object a run obtained from the processor, if any. *)
Fixpoint created_refund (t : trace) : option Refund.t :=
  match t with
  | [] => None
  | (Stripe (RefundCreate _), inr (GotRefund r)) :: _ => Some r
  | _ :: rest => created_refund rest
  end.

(** *** Successful runs *)

(** The chat platform delivers every call. *)
Definition slack_delivers (E : env) : Prop := forall c, slack E c = None.

(** The keyword arguments of the two call sites of [stripe.Refund.create]. *)
Definition charge_refund_params (charge_id : string) (user_id channel_id : pyval)
    : RefundCreate.params :=
  RefundCreate.make (Some charge_id) None None "requested_by_customer"
    [("slack_user_id", user_id); ("slack_channel_id", channel_id)].

Definition intent_refund_params (payment_intent_id : pyval) (amount : Z)
    (user_id reason : pyval) : RefundCreate.params :=
  RefundCreate.make None (Some payment_intent_id) (Some amount)
    "requested_by_customer"
    [("slack_user_id", user_id); ("reason", reason)].

(** The text of the command, trimmed, is [charge_id] and passes the
    validation of lines 79-107. *)
Definition valid_charge_id (command : dict) (charge_id : string) : Prop :=
  (exists text,
      Py.get command "text" (PStr "") = PStr text /\ Py.strip text = charge_id)
  /\ String.eqb charge_id "" = false
  /\ Py.startswith "ch_" charge_id = true.

(** The command carries a valid charge id and the two ids the metadata of the
    refund needs. *)
Definition accepted (command : dict) (charge_id : string)
    (user_id channel_id : pyval) : Prop :=
  valid_charge_id command charge_id
  /\ Py.item command "user_id" = inr user_id
  /\ Py.item command "channel_id" = inr channel_id.

(** The channel id the announcement is posted to, as the handler computes
    it once the body is known to carry a channel. *)
Definition announcement_channel (body : dict) : exn + pyval :=
  match Py.item body "channel" with
  | inr channel => Py.getitem channel "id"
  | inl e => inl e
  end.

(** *** Layout of the success receipt (lines 142-198 and 419-471) *)



Definition test_mode_line : string :=
  "🧪 *TEST MODE* - Refund will appear on the original payment method within 5-10 business days.".

Definition settlement_line : string :=
  "Refund will appear on your original payment method within 5-10 business days.".

(** *** Delivery modes (lines 109-121, 193-198, 466-487) *)

(** What the guarded region of the modal handler obtains before it sends
    anything: the refund and its amount in major units, or the exception
    raised by the conversion of the amount, by the processor or by the
    division. *)
Definition refund_attempt (repr : pyval -> string) (E : env)
    (payment_intent_id amount user_id reason : pyval)
    : exn + (Refund.t * Py.float) :=
  match Py.int repr amount with
  | inl e => inl e
  | inr n =>
      match refund_create E
              (intent_refund_params payment_intent_id n user_id reason) with
      | inl e => inl e
      | inr refund =>
          match Py.truediv (Refund.amount refund) 100 with
          | inl e => inl e
          | inr refund_amount => inr (refund, refund_amount)
          end
      end
  end.

(** *** Rendering of the amount (lines 137-159 and 416-436) *)



Definition fifty : Py.float := Py.mkFloat false 7036874417766400 (-47).

(** *** Exceptions that leave a handler *)



(** *** The other handlers: wiring, payloads and acknowledgement *)

(** The run starts with the acknowledgement, and does nothing else when the
    acknowledgement raises. *)
Definition acknowledges_first (E : env) (m : M unit) : Prop :=
  (exists r rest, run_trace m = (Slack Ack, r) :: rest)
  /\ (forall e, slack E Ack = Some e -> m = ([(Slack Ack, inl e)], inl e)).

Definition ui_acknowledges_first (P : Ui.platform) (m : Ui.U unit) : Prop :=
  (exists r rest, fst m = (Ui.Acknowledge, r) :: rest)
  /\ (forall e, P Ui.Acknowledge = Some e ->
      m = ([(Ui.Acknowledge, Some e)], inl e)).

(** The chat platform returns from every call of the prompt handlers. *)
Definition ui_delivers (P : Ui.platform) : Prop := forall c, P c = None.

Definition listener_kind_eqb (a b : listener_kind) : bool :=
  match a, b with
  | OnMessage, OnMessage | OnCommand, OnCommand
  | OnAction, OnAction | OnView, OnView => true
  | _, _ => false
  end.

(** The listener registered for a selector of a kind, if any. *)
Definition registered (kind : listener_kind) (selector : string)
    : option listener :=
  match
    find (fun r => listener_kind_eqb (fst (fst r)) kind
                   && String.eqb (snd (fst r)) selector)
         registrations
  with
  | Some r => Some (snd r)
  | None => None
  end.

(** The function each action decorator decorates. *)
Definition action_handler (P : Ui.platform) (l : listener)
    : option (dict -> Ui.U unit) :=
  match l with
  | HandleAskQuestion => Some (handle_ask_question P)
  | HandleRefundRequest => Some (handle_refund_request P)
  | _ => None
  end.

(** The buttons of a prompt, in reading order. *)
Definition buttons (bs : list prompt_block) : list Button.t :=
  flat_map
    (fun b =>
       match b with
       | PromptSection _ => []
       | PromptActions elements => elements
       end)
    bs.

(** The [view] a submission handler receives for a modal, as the chat
    platform reports it: under [state] and [values], one entry per input
    block, keyed by the block id and then by the action id, that holds the
    submitted value. *)
Definition reported_view (m : Modal.t) (answer : string -> string -> pyval)
    : dict :=
  [ ("callback_id", PStr (Modal.callback_id m));
    ("state",
     PDict
       [ ("values",
          PDict
            (map
               (fun i =>
                  (Input.block_id i,
                   PDict
                     [ (Input.action_id i,
                        PDict
                          [ ("type", PStr "plain_text_input");
                            ("value",
                             answer (Input.block_id i) (Input.action_id i)) ]) ]))
               (Modal.blocks m))) ]) ].

(** A chat platform that delivers the direct messages to [U1] and refuses
    every other post. *)
Definition members_only_env (outcome : exn + Refund.t) : env :=
  mkEnv (Some "sk_test_1") (fun _ => inr (Charge [])) (fun _ => outcome)
    (fun c =>
       match c with
       | ChatPostMessage (PStr "U1") _ _ => None
       | ChatPostMessage _ _ _ => Some (PyError "not_in_channel")
       | _ => None
       end).

(** A chat platform that refuses the replies that replace a message in the
    channel. *)
Definition stale_response_env (outcome : exn + Refund.t) : env :=
  mkEnv (Some "sk_test_1") (fun _ => inr (Charge [])) (fun _ => outcome)
    (fun c =>
       match c with
       | Respond (mkResponse "in_channel" (Some true) _) =>
           Some (PyError "expired_url")
       | _ => None
       end).

(** ** Proof tools *)

(** [run] unfolds the monad and the capabilities and reduces the matches
    whose outcome is known. *)
Ltac run :=
  cbv beta iota zeta delta
    [bind lift ret try_except call_slack ack respond chat_postMessage
     stripe_Charge_retrieve stripe_Refund_create run_trace run_result
     Py.strip_method fst snd negb].

(** [crack] splits on the result of each external call in turn. *)
Ltac crack :=
  repeat
    (run;
     match goal with
     | |- context [match slack ?E ?c with _ => _ end] =>
         destruct (slack E c) eqn:?
     | |- context [match charge_retrieve ?E ?c with _ => _ end] =>
         destruct (charge_retrieve E c) eqn:?
     | |- context [match refund_create ?E ?c with _ => _ end] =>
         destruct (refund_create E c) eqn:?
     end);
  run.

(** [split_innermost] splits on a scrutinee that contains no other; [explore]
    repeats it, and so evaluates a handler along every combination of results
    of the operations it performs. *)
Ltac split_innermost :=
  match goal with
  | |- context [match ?x with _ => _ end] =>
      lazymatch x with
      | context [match _ with _ => _ end] => fail
      | _ => destruct x eqn:?
      end
  end.

Ltac explore :=
  run; repeat (split_innermost; run).


Ltac settle_post :=
  cbn [created_refund app fst snd];
  repeat first [apply Forall_nil | apply Forall_cons];
  let ch := fresh "ch" in
  let text := fresh "text" in
  let blocks := fresh "blocks" in
  let x := fresh "x" in
  let Hev := fresh "Hev" in
  let Hch := fresh "Hch" in
  intros ch text blocks x Hev Hch;
  try discriminate Hev;
  injection Hev as <- <- <-;
  first
    [ exfalso; apply Hch; reflexivity
    | do 2 eexists; repeat split; try eassumption; try reflexivity;
      eexists; split; [reflexivity | eassumption] ].



Ltac settle_order :=
  cbn [stripe_calls app fst snd];
  first
    [ left; reflexivity
    | right; left; eexists; reflexivity
    | right; right; do 3 eexists;
      split; [reflexivity | split; [eassumption | reflexivity]] ].

(** [run] and [explore] for the prompt handlers. *)
Ltac ui_run :=
  cbv beta iota zeta delta
    [Ui.bind Ui.lift Ui.ret Ui.perform Ui.ack Ui.say Ui.respond Ui.views_open
     Ui.calls fst snd].

Ltac ui_explore :=
  ui_run; repeat (split_innermost; ui_run).

(** ** The scenarios of the specification, run on the model *)

Example scenario_refund_command_receipt :
  slack_calls
    (run_trace
       (refund_command
          (sample_env "sk_test_1"
             (inr (Refund.make "re_1" 5000 "usd" "succeeded" 1700000000)))
          (sample_command "ch_abc123")))
  = [ Ack;
      Respond processing_message;
      Respond
        (mkResponse "in_channel" (Some true)
           [ Header (PlainText "💰 Refund Receipt");
             SectionFields
               [ Mrkdwn ("*Refund ID:*" ++ nl ++ "re_1");
                 Mrkdwn ("*Amount:*" ++ nl ++ "$50.00 USD");
                 Mrkdwn ("*Status:*" ++ nl ++ "SUCCEEDED");
                 Mrkdwn ("*Original Charge:*" ++ nl ++ "ch_abc123");
                 Mrkdwn ("*Reason:*" ++ nl ++ "Requested by customer");
                 Mrkdwn ("*Timestamp:*" ++ nl
                         ++ "<!date^1700000000^{date_short} {time}|1700000000>") ];
             Divider;
             Context [Mrkdwn test_mode_line] ]) ].
Proof. reflexivity. Qed.

Example scenario_refund_submission :
  slack_calls
    (run_trace
       (handle_refund_submission sample_repr
          (sample_env "sk_test_1" (inr (sample_refund 2500)))
          (sample_body (Some "C9"))
          (sample_view (PStr "pi_1") (PStr "2500") (PStr "duplicate charge"))))
  = [ Ack;
      ChatPostMessage (PStr "U1") "Refund processed: $25.00"
        (Some
           [ SectionText (Mrkdwn "✅ *Refund Processed Successfully*");
             SectionFields
               [ Mrkdwn ("*Refund ID:*" ++ nl ++ "re_1");
                 Mrkdwn ("*Amount:*" ++ nl ++ "$25.00");
                 Mrkdwn ("*Status:*" ++ nl ++ "Succeeded");
                 Mrkdwn ("*Payment Intent:*" ++ nl ++ "pi_1") ];
             SectionText (Mrkdwn "*Reason:* duplicate charge");
             Context [Mrkdwn settlement_line] ]);
      ChatPostMessage (PStr "C9")
        "Refund of $25.00 has been processed for <@U1>"
        (Some [SectionText (Mrkdwn "✅ Refund of *$25.00* processed for <@U1>")]) ].
Proof. reflexivity. Qed.

Example scenario_already_refunded :
  slack_calls
    (run_trace
       (refund_command
          (failing_refund_env
             (InvalidRequestError "Charge ch_abc123 has already been refunded."))
          (sample_command "ch_abc123")))
  = [ Ack;
      Respond processing_message;
      Respond (error_response "❌ This charge has already been fully refunded.") ].
Proof. reflexivity. Qed.

Example scenario_empty_command :
  refund_command (sample_env "sk_test_1" (inr (sample_refund 5000)))
    (sample_command "")
  = ([ (Slack Ack, inr Delivered);
       (Slack (Respond (mkResponse "ephemeral" None
                 [SectionText (Mrkdwn missing_charge_id_text)])),
        inr Delivered) ],
     inr tt).
Proof. reflexivity. Qed.

(** ** Validation of the charge id ([refund_command], lines 76-107) *)

Lemma call_slack_calls E c : calls (run_trace (call_slack E c)) = [Slack c].
Proof. unfold call_slack. destruct (slack E c); reflexivity. Qed.

(** C2, counterexample: the bare prefix [ch_] does not match [^ch_.+], yet
    the handler accepts it: it posts the channel-visible placeholder and
    asks the processor for the charge [ch_]. *)
Lemma refund_command_accepts_bare_prefix :
  matches_charge_pattern (Py.strip "ch_") = false
  /\ stripe_calls (run_trace (refund_command empty_processor_env
                                (sample_command "ch_")))
     = [ChargeRetrieve "ch_"]
  /\ slack_calls (run_trace (refund_command empty_processor_env
                               (sample_command "ch_")))
     = [Ack; Respond processing_message;
        Respond (error_response
                   "❌ Charge ID `ch_` not found. Please verify the charge ID is correct.")].
Proof. repeat split; reflexivity. Qed.

(** C2, as amended: when the trimmed text of the command is empty or does not
    start with [ch_], the handler makes no call to the processor, and once
    the event is acknowledged its only reply is one ephemeral message that
    contains the usage string (for empty input, the one asking for a charge
    id). *)
Theorem refund_command_rejects_malformed_charge_id :
  forall (E : env) (command : dict) (text : string),
    Py.get command "text" (PStr "") = PStr text ->
    Py.strip text = "" \/ Py.startswith "ch_" (Py.strip text) = false ->
    stripe_calls (run_trace (refund_command E command)) = []
    /\ (slack E Ack = None ->
        calls (run_trace (refund_command E command))
        = [Slack Ack;
           Slack (Respond (mkResponse "ephemeral" None
                    [SectionText (Mrkdwn (rejection_text (Py.strip text)))]))]
        /\ Py.contains usage (rejection_text (Py.strip text)) = true
        /\ (Py.strip text = "" ->
            rejection_text (Py.strip text) = missing_charge_id_text)).
Proof.
  intros E command text Htext Hbad.
  assert (Hbranch :
    String.eqb (Py.strip text) "" = false ->
    Py.startswith "ch_" (Py.strip text) = false).
  { destruct Hbad as [-> | ->]; [discriminate | reflexivity]. }
  unfold refund_command, rejection_text. rewrite Htext. run.
  destruct (String.eqb (Py.strip text) "") eqn:Hempty;
    [| rewrite (Hbranch eq_refl)];
    (split;
     [ crack; reflexivity
     | intros ->; run; split; [crack; reflexivity | split; [reflexivity|] ] ]).
  - reflexivity.
  - intros Hs. rewrite Hs in Hempty. discriminate.
Qed.

(** The theorem applied to the command text [" order-17 "]. *)
Lemma refund_command_rejects_malformed_charge_id_witness :
  stripe_calls (run_trace (refund_command empty_processor_env
                             (sample_command " order-17 "))) = []
  /\ (slack empty_processor_env Ack = None ->
      calls (run_trace (refund_command empty_processor_env
                          (sample_command " order-17 ")))
      = [Slack Ack;
         Slack (Respond (mkResponse "ephemeral" None
                  [SectionText (Mrkdwn (rejection_text (Py.strip " order-17 ")))]))]
      /\ Py.contains usage (rejection_text (Py.strip " order-17 ")) = true
      /\ (Py.strip " order-17 " = "" ->
          rejection_text (Py.strip " order-17 ") = missing_charge_id_text)).
Proof.
  apply (refund_command_rejects_malformed_charge_id empty_processor_env
           (sample_command " order-17 ") " order-17 ").
  - reflexivity.
  - right. reflexivity.
Defined.

(** ** Well-formed submissions of the refund modal *)

Lemma bind_ret {A B} (a : A) (k : A -> M B) : bind (ret a) k = k a.
Proof. unfold bind, ret. destruct (k a). reflexivity. Qed.

Lemma bind_lift_inr {A B} (a : A) (k : A -> M B) : bind (lift (inr a)) k = k a.
Proof. apply bind_ret. Qed.


Lemma run_trace_try {A} (m : M A) (h : exn -> M A) :
  run_trace (try_except m h)
  = (run_trace m
     ++ match run_result m with
        | inl e => run_trace (h e)
        | inr _ => []
        end)%list.
Proof.
  destruct m as [t [e | a]]; cbn.
  - destruct (h e); reflexivity.
  - now rewrite app_nil_r.
Qed.

Lemma calls_app (t u : trace) :
  calls (t ++ u)%list = (calls t ++ calls u)%list.
Proof. apply map_app. Qed.



(** On a well-formed submission the handler is the acknowledgement followed
    by the guarded region. *)
Lemma handle_refund_submission_submitted repr E body view
    user_id payment_intent_id amount reason :
  submitted body view user_id payment_intent_id amount reason ->
  handle_refund_submission repr E body view
  = bind (ack E) (fun _ =>
      try_except
        (handle_refund_submission_try repr E body user_id payment_intent_id
           amount reason)
        (handle_refund_submission_except E user_id)).
Proof.
  intros [[user [Huser Hid]] [Hpi [Hamount Hreason]]].
  unfold handle_refund_submission.
  rewrite Huser, bind_lift_inr, Hid, bind_lift_inr.
  rewrite Hpi, bind_ret, Hamount, bind_ret, Hreason, bind_ret.
  reflexivity.
Qed.

Lemma sample_submitted channel payment_intent_id amount reason :
  submitted (sample_body channel)
    (sample_view payment_intent_id amount reason)
    (PStr "U1") payment_intent_id amount reason.
Proof.
  split; [| repeat split].
  exists (PDict [("id", PStr "U1")]). split; reflexivity.
Defined.

(** ** Conversion of the amount ([handle_refund_submission], lines 403-413) *)




(** ** Mapping of exceptions to messages (lines 200-251 and 489-502) *)

(** C3, counterexample: in the modal flow an invalid-request error saying the
    charge has already been refunded, and an unrelated processor error with
    the same text, produce the same calls and the same generic message; the
    message content selects no category there. *)
Lemma refund_submission_does_not_map_by_content :
  classify (InvalidRequestError "Charge ch_1 has already been refunded.")
  = AlreadyRefunded
  /\ classify (StripeError "Charge ch_1 has already been refunded.")
     = ProcessorError
  /\ slack_calls
       (run_trace
          (handle_refund_submission sample_repr
             (failing_refund_env
                (InvalidRequestError "Charge ch_1 has already been refunded."))
             (sample_body None)
             (sample_view (PStr "pi_1") (PStr "1999") (PStr "test"))))
     = [Ack;
        ChatPostMessage (PStr "U1")
          "❌ Refund failed: Charge ch_1 has already been refunded." None]
  /\ slack_calls
       (run_trace
          (handle_refund_submission sample_repr
             (failing_refund_env
                (StripeError "Charge ch_1 has already been refunded."))
             (sample_body None)
             (sample_view (PStr "pi_1") (PStr "1999") (PStr "test"))))
     = [Ack;
        ChatPostMessage (PStr "U1")
          "❌ Refund failed: Charge ch_1 has already been refunded." None].
Proof. repeat split; reflexivity. Qed.

(** C3, as amended: an exception [e] raised in the guarded region of the
    slash command is answered by one ephemeral reply whose text is fixed by
    the category of [e] (not found, already refunded, invalid request with
    the message, processor error with the message, internal error with the
    message); in the modal flow it is answered by one direct message, which
    is the generic failure text with the message for every processor error
    and the internal-error text with the message for any other exception. *)
Theorem refund_error_mapping :
  forall repr (E : env) (command body : dict) (charge_id : string)
         (user_id payment_intent_id amount reason : pyval),
    (forall t e,
        refund_command_try E command charge_id = (t, inl e) ->
        exists text,
          calls (run_trace
                   (try_except (refund_command_try E command charge_id)
                      (refund_command_except E charge_id)))
          = (calls t ++ [Slack (Respond (error_response text))])%list
          /\ (classify e = NotFound ->
              text = "❌ Charge ID `" ++ charge_id
                     ++ "` not found. Please verify the charge ID is correct.")
          /\ (classify e = AlreadyRefunded ->
              text = "❌ This charge has already been fully refunded.")
          /\ (classify e = InvalidRequest ->
              text = "❌ Invalid request: " ++ str_exn e)
          /\ (classify e = ProcessorError ->
              text = "❌ Stripe error: " ++ str_exn e)
          /\ (classify e = InternalError ->
              text = "❌ An error occurred while processing the refund: "
                     ++ str_exn e))
    /\ (forall t e,
          handle_refund_submission_try repr E body user_id payment_intent_id
            amount reason = (t, inl e) ->
          exists text,
            calls (run_trace
                     (try_except
                        (handle_refund_submission_try repr E body user_id
                           payment_intent_id amount reason)
                        (handle_refund_submission_except E user_id)))
            = (calls t ++ [Slack (ChatPostMessage user_id text None)])%list
            /\ (classify e <> InternalError ->
                text = "❌ Refund failed: " ++ str_exn e)
            /\ (classify e = InternalError ->
                text = "❌ An error occurred while processing the refund: "
                       ++ str_exn e)).
Proof.
  intros repr E command body charge_id user_id pi amount reason. split.
  - intros t e Htry. rewrite run_trace_try, Htry.
    cbn [run_trace run_result fst snd]. rewrite calls_app.
    unfold refund_command_except, respond. rewrite call_slack_calls.
    eexists. split; [reflexivity|].
    destruct e as [m | m | m]; cbn [classify str_exn refund_command_error_text];
      unfold invalid_request_text;
      repeat match goal with
        | |- context [if Py.contains ?a ?b then _ else _] =>
            destruct (Py.contains a b)
        end;
      repeat split; intros; (reflexivity || discriminate).
  - intros t e Htry. rewrite run_trace_try, Htry.
    cbn [run_trace run_result fst snd]. rewrite calls_app.
    unfold handle_refund_submission_except, chat_postMessage.
    rewrite call_slack_calls.
    eexists. split; [reflexivity|].
    destruct e as [m | m | m]; cbn [classify str_exn submission_error_message];
      repeat match goal with
        | |- context [if Py.contains ?a ?b then _ else _] =>
            destruct (Py.contains a b)
        end;
      split; intros H; try reflexivity; try discriminate;
      exfalso; apply H; reflexivity.
Qed.

(** ** Audience of the messages *)


(** ** The channel announcement of the modal flow (lines 473-487) *)

(** Any message a run of the modal handler posts to a channel other than the
    requester's own is the announcement: its text and block are built from
    the amount of the refund just created and from the requester's id, and
    it goes to the channel named in the submission body. *)
Lemma channel_post_is_announcement repr E body view user user_id :
  Py.item body "user" = inr user ->
  Py.getitem user "id" = inr user_id ->
  Forall
    (fun ev =>
       forall ch text blocks x,
         ev = (Slack (ChatPostMessage ch text blocks), x) ->
         ch <> user_id ->
         exists r amount,
           created_refund
             (run_trace (handle_refund_submission repr E body view)) = Some r
           /\ Py.truediv (Refund.amount r) 100 = inr amount
           /\ text = announcement_text repr amount user_id
           /\ blocks = Some (announcement_blocks repr amount user_id)
           /\ exists channel,
                Py.item body "channel" = inr channel
                /\ Py.getitem channel "id" = inr ch)
    (run_trace (handle_refund_submission repr E body view)).
Proof.
  intros Huser Hid.
  unfold handle_refund_submission, handle_refund_submission_try,
    handle_refund_submission_except, view_value.
  rewrite Huser. run. rewrite Hid.
  explore; settle_post.
Qed.

(** C5: two runs of the modal handler on the same submission body, whatever
    their views (payment-intent id, amount text, reason) and whatever the
    services answer, whose created refunds have the same amount, post the
    same announcement: any two messages they send to a channel other than the
    requester's own have the same channel, text and blocks. *)
Theorem announcement_independent_of_reason_and_payment_intent :
  forall repr (E1 E2 : env) (body view1 view2 : dict) (user user_id : pyval)
         (r1 r2 : Refund.t)
         (ch1 ch2 : pyval) (text1 text2 : string)
         (blocks1 blocks2 : option (list block)) (x1 x2 : exn + reply),
    Py.item body "user" = inr user ->
    Py.getitem user "id" = inr user_id ->
    created_refund (run_trace (handle_refund_submission repr E1 body view1))
    = Some r1 ->
    created_refund (run_trace (handle_refund_submission repr E2 body view2))
    = Some r2 ->
    Refund.amount r1 = Refund.amount r2 ->
    In (Slack (ChatPostMessage ch1 text1 blocks1), x1)
       (run_trace (handle_refund_submission repr E1 body view1)) ->
    ch1 <> user_id ->
    In (Slack (ChatPostMessage ch2 text2 blocks2), x2)
       (run_trace (handle_refund_submission repr E2 body view2)) ->
    ch2 <> user_id ->
    ch1 = ch2 /\ text1 = text2 /\ blocks1 = blocks2.
Proof.
  intros repr E1 E2 body view1 view2 user user_id r1 r2 ch1 ch2 text1 text2
    blocks1 blocks2 x1 x2 Huser Hid Hr1 Hr2 Hamount Hin1 Hch1 Hin2 Hch2.
  pose proof (channel_post_is_announcement repr E1 body view1 user user_id
                Huser Hid) as H1.
  pose proof (channel_post_is_announcement repr E2 body view2 user user_id
                Huser Hid) as H2.
  rewrite Forall_forall in H1, H2.
  destruct (H1 _ Hin1 _ _ _ _ eq_refl Hch1)
    as [r1' [a1 [Hc1 [Hd1 [-> [-> [c1 [Hb1 Hi1]]]]]]]].
  destruct (H2 _ Hin2 _ _ _ _ eq_refl Hch2)
    as [r2' [a2 [Hc2 [Hd2 [-> [-> [c2 [Hb2 Hi2]]]]]]]].
  rewrite Hr1 in Hc1. rewrite Hr2 in Hc2.
  injection Hc1 as <-. injection Hc2 as <-.
  rewrite Hamount, Hd2 in Hd1. injection Hd1 as <-.
  rewrite Hb2 in Hb1. injection Hb1 as <-.
  rewrite Hi2 in Hi1. injection Hi1 as <-.
  repeat split.
Qed.

(** The theorem applied to two submissions of the same requester from the
    channel [C9], with different payment intents and reasons, both refunded
    2500 minor units. *)
Lemma announcement_independent_of_reason_and_payment_intent_witness :
  PStr "C9" = PStr "C9"
  /\ "Refund of $25.00 has been processed for <@U1>"
     = "Refund of $25.00 has been processed for <@U1>"
  /\ Some [SectionText (Mrkdwn "✅ Refund of *$25.00* processed for <@U1>")]
     = Some [SectionText (Mrkdwn "✅ Refund of *$25.00* processed for <@U1>")].
Proof.
  apply (announcement_independent_of_reason_and_payment_intent
           sample_repr
           (sample_env "sk_test_1" (inr (sample_refund 2500)))
           (sample_env "sk_test_1"
              (inr (Refund.make "re_2" 2500 "eur" "pending" 1700000500)))
           (sample_body (Some "C9"))
           (sample_view (PStr "pi_1") (PStr "2500") (PStr "duplicate charge"))
           (sample_view (PStr "pi_2") (PStr "2500") (PStr "customer changed mind"))
           (PDict [("id", PStr "U1")]) (PStr "U1")
           (sample_refund 2500)
           (Refund.make "re_2" 2500 "eur" "pending" 1700000500)
           (PStr "C9") (PStr "C9")
           "Refund of $25.00 has been processed for <@U1>"
           "Refund of $25.00 has been processed for <@U1>"
           (Some [SectionText (Mrkdwn "✅ Refund of *$25.00* processed for <@U1>")])
           (Some [SectionText (Mrkdwn "✅ Refund of *$25.00* processed for <@U1>")])
           (inr Delivered) (inr Delivered)).
  - reflexivity.
  - reflexivity.
  - reflexivity.
  - reflexivity.
  - reflexivity.
  - do 3 right. left. reflexivity.
  - discriminate.
  - do 3 right. left. reflexivity.
  - discriminate.
Defined.

(** ** Successful runs *)

Lemma sample_valid_charge_id :
  valid_charge_id (sample_command "ch_abc123") "ch_abc123".
Proof.
  split; [| split; reflexivity]. exists "ch_abc123". split; reflexivity.
Defined.

Lemma sample_accepted :
  accepted (sample_command "ch_abc123") "ch_abc123" (PStr "U1") (PStr "C1").
Proof.
  split; [apply sample_valid_charge_id | split; reflexivity].
Defined.




(** ** Layout of the success receipt (lines 142-198 and 419-471) *)



(** ** Delivery modes (lines 109-121, 193-198, 466-487) *)


(** ** Rendering of the amount (lines 137-159 and 416-436) *)





Lemma append_assoc_string (a b c : string) : (a ++ b) ++ c = a ++ b ++ c.
Proof. induction a as [| ch a IH]; cbn; [reflexivity | now rewrite IH]. Qed.





(** ** Exceptions that leave a handler *)



(** ** Order of the processor calls of the slash command (lines 123-135) *)

(** C10: the processor calls of a run of the slash command are, in order,
    none, or the retrieve of the charge alone, or that retrieve followed by
    one refund-create for the same charge, the latter only when the retrieve
    returned a charge. For a valid charge id, once the acknowledgement and the
    placeholder are delivered the retrieve is issued; and when the processor
    fails the retrieve no refund-create call appears in the run. *)
Theorem retrieve_precedes_refund :
  forall (E : env) (command : dict),
    (stripe_calls (run_trace (refund_command E command)) = []
     \/ (exists charge_id,
            stripe_calls (run_trace (refund_command E command))
            = [ChargeRetrieve charge_id])
     \/ (exists charge_id charge params,
            stripe_calls (run_trace (refund_command E command))
            = [ChargeRetrieve charge_id; RefundCreate params]
            /\ charge_retrieve E charge_id = inr charge
            /\ RefundCreate.charge params = Some charge_id))
    /\ (forall charge_id,
          valid_charge_id command charge_id ->
          slack E Ack = None ->
          slack E (Respond processing_message) = None ->
          exists rest,
            stripe_calls (run_trace (refund_command E command))
            = ChargeRetrieve charge_id :: rest)
    /\ (forall charge_id e,
          valid_charge_id command charge_id ->
          charge_retrieve E charge_id = inl e ->
          forall params,
            ~ In (RefundCreate params)
                (stripe_calls (run_trace (refund_command E command)))).
Proof.
  intros E command.
  split; [| split].
  - unfold refund_command, refund_command_try, refund_command_except.
    explore; settle_order.
  - intros charge_id [[text [Htext Hstrip]] [Hne Hprefix]] Hack Hplaceholder.
    unfold refund_command, refund_command_try, refund_command_except.
    rewrite Htext. run. rewrite Hstrip, Hne, Hprefix, Hack. run.
    rewrite Hplaceholder.
    explore; cbn [stripe_calls app fst snd]; eexists; reflexivity.
  - intros charge_id e [[text [Htext Hstrip]] [Hne Hprefix]] Hfail params.
    unfold refund_command, refund_command_try, refund_command_except.
    rewrite Htext. run. rewrite Hstrip, Hne, Hprefix. run.
    explore; rewrite ?Hfail; run;
      cbn [stripe_calls app fst snd In]; intuition discriminate.
Qed.

(** The theorem applied to the command [/refund ch_abc123]. *)
Lemma retrieve_precedes_refund_witness :
  exists rest,
    stripe_calls
      (run_trace
         (refund_command (sample_env "sk_test_1" (inr (sample_refund 5000)))
            (sample_command "ch_abc123")))
    = ChargeRetrieve "ch_abc123" :: rest.
Proof.
  apply (proj1 (proj2 (retrieve_precedes_refund
                         (sample_env "sk_test_1" (inr (sample_refund 5000)))
                         (sample_command "ch_abc123")))).
  - apply sample_valid_charge_id.
  - reflexivity.
  - reflexivity.
Defined.

(** ** The theorems at sample inputs *)

(** The error mapping applied to the command [/refund ch_abc123] when the
    processor refuses the refund with "No such charge". *)
Lemma refund_error_mapping_witness :
  exists text,
    calls (run_trace
             (try_except
                (refund_command_try
                   (failing_refund_env
                      (InvalidRequestError "No such charge: 'ch_abc123'"))
                   (sample_command "ch_abc123") "ch_abc123")
                (refund_command_except
                   (failing_refund_env
                      (InvalidRequestError "No such charge: 'ch_abc123'"))
                   "ch_abc123")))
    = [ Stripe (ChargeRetrieve "ch_abc123");
        Stripe (RefundCreate
                  (charge_refund_params "ch_abc123" (PStr "U1") (PStr "C1")));
        Slack (Respond (error_response text)) ]
    /\ text = "❌ Charge ID `ch_abc123` not found. Please verify the charge ID is correct.".
Proof.
  destruct (proj1 (refund_error_mapping sample_repr
                     (failing_refund_env
                        (InvalidRequestError "No such charge: 'ch_abc123'"))
                     (sample_command "ch_abc123") (sample_body None)
                     "ch_abc123" (PStr "U1") (PStr "pi_1") (PStr "1999")
                     (PStr "test"))
              _ _ eq_refl)
    as [text [Hcalls [Hnotfound _]]].
  exists text. split; [exact Hcalls | apply Hnotfound; reflexivity].
Defined.






(** ** Further properties of the handlers *)

(** *** Acknowledgement *)

Lemma ack_then_acknowledges_first E (k : unit -> M unit) :
  acknowledges_first E (bind (ack E) k).
Proof.
  unfold acknowledges_first, ack, call_slack, bind.
  destruct (slack E Ack) as [e |] eqn:Hack.
  - split.
    + do 2 eexists. reflexivity.
    + intros e' He'. now injection He' as <-.
  - split.
    + destruct (k tt). do 2 eexists. reflexivity.
    + intros e He. discriminate He.
Qed.

Lemma ui_ack_then_acknowledges_first P (k : unit -> Ui.U unit) :
  ui_acknowledges_first P (Ui.bind (Ui.ack P) k).
Proof.
  unfold ui_acknowledges_first, Ui.ack, Ui.perform, Ui.bind.
  destruct (P Ui.Acknowledge) as [e |] eqn:Hack.
  - split.
    + do 2 eexists. reflexivity.
    + intros e' He'. now injection He' as <-.
  - split.
    + destruct (k tt). do 2 eexists. reflexivity.
    + intros e He. discriminate He.
Qed.

(** X1: every run of [refund_command], [handle_refund_submission] and
    [handle_question_submission] starts with the acknowledgement of the
    event, before any payload is read and before any call to the processor;
    when the acknowledgement raises, the handler does nothing else and the
    exception leaves it. *)
Theorem refund_handlers_acknowledge_first :
  forall repr (E : env) (command body view : dict),
    acknowledges_first E (refund_command E command)
    /\ acknowledges_first E (handle_refund_submission repr E body view)
    /\ acknowledges_first E (handle_question_submission repr E body view).
Proof.
  intros repr E command body view.
  repeat split; apply ack_then_acknowledges_first.
Qed.

(** X2: every run of [support_command], [handle_ask_question] and
    [handle_refund_request] starts with the acknowledgement; when it raises,
    no prompt is sent and no modal is opened. *)
Theorem prompt_handlers_acknowledge_first :
  forall (P : Ui.platform) (command body : dict),
    ui_acknowledges_first P (support_command P command)
    /\ ui_acknowledges_first P (handle_ask_question P body)
    /\ ui_acknowledges_first P (handle_refund_request P body).
Proof.
  intros P command body.
  repeat split; apply ui_ack_then_acknowledges_first.
Qed.

(** *** What [refund_command] reads of its command *)

(** X3: [refund_command] depends on the command only through its trimmed
    text and its [user_id] and [channel_id] entries: two commands that agree
    on these run identically, so white space around the charge id is
    ignored. *)
Theorem refund_command_ignores_surrounding_space :
  forall (E : env) (command1 command2 : dict) (text1 text2 : string),
    Py.get command1 "text" (PStr "") = PStr text1 ->
    Py.get command2 "text" (PStr "") = PStr text2 ->
    Py.strip text1 = Py.strip text2 ->
    Py.item command1 "user_id" = Py.item command2 "user_id" ->
    Py.item command1 "channel_id" = Py.item command2 "channel_id" ->
    refund_command E command1 = refund_command E command2.
Proof.
  intros E command1 command2 text1 text2 H1 H2 Hstrip Huser Hchannel.
  unfold refund_command, refund_command_try.
  rewrite H1, H2. cbn [Py.strip_method].
  rewrite Hstrip, Huser, Hchannel. reflexivity.
Qed.

(** The theorem applied to [/refund ch_abc123] typed with and without
    blanks. *)
Lemma refund_command_ignores_surrounding_space_witness :
  refund_command (sample_env "sk_test_1" (inr (sample_refund 5000)))
    (sample_command "  ch_abc123 ")
  = refund_command (sample_env "sk_test_1" (inr (sample_refund 5000)))
      (sample_command "ch_abc123").
Proof.
  apply (refund_command_ignores_surrounding_space
           (sample_env "sk_test_1" (inr (sample_refund 5000)))
           (sample_command "  ch_abc123 ") (sample_command "ch_abc123")
           "  ch_abc123 " "ch_abc123"); reflexivity.
Defined.

(** *** The refund requests sent to the processor *)

(** X4: whatever the services answer, a refund-create call of the slash
    command refunds the charge named by the trimmed text of the command, in
    full (it passes no amount), for the reason [requested_by_customer], with
    the user and channel ids of the command as metadata. *)
Theorem refund_command_refunds_the_named_charge_in_full :
  forall (E : env) (command : dict),
    Forall
      (fun ev =>
         forall p r,
           ev = (Stripe (RefundCreate p), r) ->
           exists text user_id channel_id,
             Py.get command "text" (PStr "") = PStr text
             /\ Py.item command "user_id" = inr user_id
             /\ Py.item command "channel_id" = inr channel_id
             /\ p = charge_refund_params (Py.strip text) user_id channel_id
             /\ RefundCreate.amount p = None)
      (run_trace (refund_command E command)).
Proof.
  intros E command.
  unfold refund_command, refund_command_try, refund_command_except.
  explore;
    cbn [app];
    repeat first [apply Forall_nil | apply Forall_cons];
    (let params := fresh "params" in
     let result := fresh "result" in
     let Hev := fresh "Hev" in
     intros params result Hev; try discriminate Hev;
     injection Hev as <- <-;
     do 3 eexists; repeat split; try eassumption; reflexivity).
Qed.

(** X5: when a command with a valid charge id lacks its [user_id] entry, or
    has it and lacks its [channel_id] entry, the charge is retrieved but no
    refund is created: the run ends with the ephemeral internal-error reply
    that names the missing key. *)
Theorem refund_command_without_metadata_ids :
  forall (E : env) (command : dict) (charge_id : string)
         (charge : charge_object),
    valid_charge_id command charge_id ->
    slack_delivers E ->
    charge_retrieve E charge_id = inr charge ->
    (Py.lookup command "user_id" = None ->
     calls (run_trace (refund_command E command))
     = [ Slack Ack; Slack (Respond processing_message);
         Stripe (ChargeRetrieve charge_id);
         Slack (Respond
                  (error_response
                     "❌ An error occurred while processing the refund: 'user_id'")) ])
    /\ (forall user_id,
          Py.lookup command "user_id" = Some user_id ->
          Py.lookup command "channel_id" = None ->
          calls (run_trace (refund_command E command))
          = [ Slack Ack; Slack (Respond processing_message);
              Stripe (ChargeRetrieve charge_id);
              Slack (Respond
                       (error_response
                          "❌ An error occurred while processing the refund: 'channel_id'")) ]).
Proof.
  intros E command charge_id charge
    [[text [Htext Hstrip]] [Hne Hprefix]] Hslack Hcharge.
  unfold refund_command, refund_command_try, refund_command_except, Py.item.
  rewrite Htext. run. rewrite Hstrip, Hne, Hprefix, !Hslack. run.
  rewrite Hcharge. run.
  split.
  - intros ->. run. rewrite Hslack. reflexivity.
  - intros user_id -> ->. run. rewrite Hslack. reflexivity.
Qed.

(** The theorem applied to a command that carries only its text. *)
Lemma refund_command_without_metadata_ids_witness :
  calls (run_trace
           (refund_command (sample_env "sk_test_1" (inr (sample_refund 5000)))
              [("text", PStr "ch_abc123")]))
  = [ Slack Ack; Slack (Respond processing_message);
      Stripe (ChargeRetrieve "ch_abc123");
      Slack (Respond
               (error_response
                  "❌ An error occurred while processing the refund: 'user_id'")) ].
Proof.
  apply (proj1 (refund_command_without_metadata_ids
                  (sample_env "sk_test_1" (inr (sample_refund 5000)))
                  [("text", PStr "ch_abc123")] "ch_abc123" (Charge [])
                  (conj (ex_intro _ "ch_abc123" (conj eq_refl eq_refl))
                        (conj eq_refl eq_refl))
                  (fun c => eq_refl) eq_refl)).
  reflexivity.
Defined.


(** X7: on a well-formed, acknowledged submission whose amount is not a
    string (the input was left empty, so its value is null), the handler
    makes no call to the processor and sends the requester one direct message
    that carries the text of the [TypeError] of [int]. *)
Theorem refund_submission_without_amount_text :
  forall repr (E : env) (body view : dict)
         (user_id payment_intent_id amount reason : pyval),
    submitted body view user_id payment_intent_id amount reason ->
    (forall s, amount <> PStr s) ->
    slack E Ack = None ->
    calls (run_trace (handle_refund_submission repr E body view))
    = [ Slack Ack;
        Slack (ChatPostMessage user_id
                 ("❌ An error occurred while processing the refund: "
                  ++ "int() argument must be a string, a bytes-like object or a real number, not '"
                  ++ Py.type_name amount ++ "'")
                 None) ].
Proof.
  intros repr E body view user_id pi amount reason Hsub Hamount Hack.
  rewrite (handle_refund_submission_submitted _ _ _ _ _ _ _ _ Hsub).
  unfold handle_refund_submission_try, handle_refund_submission_except.
  destruct amount as [| s | d]; [| exfalso; now apply (Hamount s) |];
    cbn [Py.int]; run; rewrite Hack; crack; reflexivity.
Qed.

(** The theorem applied to a submission whose amount is null. *)
Lemma refund_submission_without_amount_text_witness :
  calls (run_trace
           (handle_refund_submission sample_repr
              (sample_env "sk_test_1" (inr (sample_refund 5000)))
              (sample_body None)
              (sample_view (PStr "pi_1") PNone (PStr "test"))))
  = [ Slack Ack;
      Slack (ChatPostMessage (PStr "U1")
               ("❌ An error occurred while processing the refund: "
                ++ "int() argument must be a string, a bytes-like object or a real number, not '"
                ++ Py.type_name PNone ++ "'")
               None) ].
Proof.
  apply (refund_submission_without_amount_text sample_repr
           (sample_env "sk_test_1" (inr (sample_refund 5000)))
           (sample_body None)
           (sample_view (PStr "pi_1") PNone (PStr "test"))
           (PStr "U1") (PStr "pi_1") PNone (PStr "test")).
  - apply sample_submitted.
  - intros s H. discriminate H.
  - reflexivity.
Defined.

(** *** Failures that follow a created refund *)

(** X8: in the modal flow, once the refund is created and the receipt is
    delivered, a body whose channel entry names no id, or an announcement the
    chat platform refuses, makes the handler send the requester an error
    message after the receipt: the error message does not mean that no
    refund was made. *)
Theorem refund_submission_error_after_refund :
  forall repr (E : env) (body view : dict)
         (user_id payment_intent_id amount reason : pyval)
         (refund : Refund.t) (refund_amount : Py.float),
    submitted body view user_id payment_intent_id amount reason ->
    refund_attempt repr E payment_intent_id amount user_id reason
    = inr (refund, refund_amount) ->
    slack E Ack = None ->
    slack E (ChatPostMessage user_id
               ("Refund processed: $" ++ Py.format_2f refund_amount)
               (Some (submission_receipt repr refund refund_amount
                        payment_intent_id reason))) = None ->
    Py.truthy (Py.get body "channel" PNone) = true ->
    created_refund (run_trace (handle_refund_submission repr E body view))
    = Some refund
    /\ (forall e,
          announcement_channel body = inl e ->
          slack_calls (run_trace (handle_refund_submission repr E body view))
          = [ Ack;
              ChatPostMessage user_id
                ("Refund processed: $" ++ Py.format_2f refund_amount)
                (Some (submission_receipt repr refund refund_amount
                         payment_intent_id reason));
              ChatPostMessage user_id (submission_error_message e) None ])
    /\ (forall channel_id e,
          announcement_channel body = inr channel_id ->
          slack E (ChatPostMessage channel_id
                     (announcement_text repr refund_amount user_id)
                     (Some (announcement_blocks repr refund_amount user_id)))
          = Some e ->
          slack_calls (run_trace (handle_refund_submission repr E body view))
          = [ Ack;
              ChatPostMessage user_id
                ("Refund processed: $" ++ Py.format_2f refund_amount)
                (Some (submission_receipt repr refund refund_amount
                         payment_intent_id reason));
              ChatPostMessage channel_id
                (announcement_text repr refund_amount user_id)
                (Some (announcement_blocks repr refund_amount user_id));
              ChatPostMessage user_id (submission_error_message e) None ]).
Proof.
  intros repr E body view user_id pi amount reason refund refund_amount
    Hsub Hattempt Hack Hreceipt Htruthy.
  rewrite (handle_refund_submission_submitted _ _ _ _ _ _ _ _ Hsub).
  unfold refund_attempt, intent_refund_params in Hattempt.
  unfold handle_refund_submission_try, handle_refund_submission_except,
    announcement_channel.
  destruct (Py.int repr amount) as [e0 | n]; [discriminate Hattempt|].
  destruct (refund_create E _) as [e0 | refund'] eqn:Hcreate;
    [discriminate Hattempt|].
  destruct (Py.truediv (Refund.amount refund') 100) as [e0 | x] eqn:Hdiv;
    [discriminate Hattempt|].
  injection Hattempt as -> ->.
  run. rewrite Hack. run. rewrite Hcreate. run. rewrite Hdiv. run.
  rewrite Hreceipt. run. rewrite Htruthy. run.
  split; [| split].
  - explore; reflexivity.
  - intros e He.
    destruct (Py.item body "channel") as [e1 | channel]; run.
    + injection He as ->. explore; reflexivity.
    + rewrite He. explore; reflexivity.
  - intros channel_id e Hchannel Hpost.
    destruct (Py.item body "channel") as [e1 | channel];
      [discriminate Hchannel|].
    run. rewrite Hchannel. run. rewrite Hpost. explore; reflexivity.
Qed.

(** The theorem applied to a submission from the channel [C9], which the
    bot cannot post to: the refund of 5000 minor units is created, the
    requester gets the receipt and then an error message. *)
Lemma refund_submission_error_after_refund_witness :
  slack_calls
    (run_trace
       (handle_refund_submission sample_repr
          (members_only_env (inr (sample_refund 5000)))
          (sample_body (Some "C9"))
          (sample_view (PStr "pi_1") (PStr "5000") (PStr "duplicate charge"))))
  = [ Ack;
      ChatPostMessage (PStr "U1")
        ("Refund processed: $" ++ Py.format_2f fifty)
        (Some (submission_receipt sample_repr (sample_refund 5000) fifty
                 (PStr "pi_1") (PStr "duplicate charge")));
      ChatPostMessage (PStr "C9")
        (announcement_text sample_repr fifty (PStr "U1"))
        (Some (announcement_blocks sample_repr fifty (PStr "U1")));
      ChatPostMessage (PStr "U1")
        (submission_error_message (PyError "not_in_channel")) None ].
Proof.
  apply (proj2 (proj2
           (refund_submission_error_after_refund sample_repr
              (members_only_env (inr (sample_refund 5000)))
              (sample_body (Some "C9"))
              (sample_view (PStr "pi_1") (PStr "5000") (PStr "duplicate charge"))
              (PStr "U1") (PStr "pi_1") (PStr "5000") (PStr "duplicate charge")
              (sample_refund 5000) fifty
              (sample_submitted _ _ _ _) eq_refl eq_refl eq_refl eq_refl)));
    reflexivity.
Defined.

(** X9: in the slash flow, once the refund is created, an amount whose
    division by 100 raises, or a receipt the chat platform refuses, makes the
    handler answer with the ephemeral error reply of the exception: here too
    the error reply follows a refund that was made. *)
Theorem refund_command_error_after_refund :
  forall (E : env) (command : dict) (charge_id : string)
         (user_id channel_id : pyval) (charge : charge_object)
         (refund : Refund.t),
    accepted command charge_id user_id channel_id ->
    slack E Ack = None ->
    slack E (Respond processing_message) = None ->
    charge_retrieve E charge_id = inr charge ->
    refund_create E (charge_refund_params charge_id user_id channel_id)
    = inr refund ->
    created_refund (run_trace (refund_command E command)) = Some refund
    /\ (forall e,
          Py.truediv (Refund.amount refund) 100 = inl e ->
          slack_calls (run_trace (refund_command E command))
          = [ Ack; Respond processing_message;
              Respond (error_response (refund_command_error_text charge_id e)) ])
    /\ (forall refund_amount e,
          Py.truediv (Refund.amount refund) 100 = inr refund_amount ->
          slack E (Respond
                     (mkResponse "in_channel" (Some true)
                        (refund_command_receipt refund charge_id refund_amount
                           (Py.upper (Refund.currency refund)))))
          = Some e ->
          slack_calls (run_trace (refund_command E command))
          = [ Ack; Respond processing_message;
              Respond
                (mkResponse "in_channel" (Some true)
                   (refund_command_receipt refund charge_id refund_amount
                      (Py.upper (Refund.currency refund))));
              Respond (error_response (refund_command_error_text charge_id e)) ]).
Proof.
  intros E command charge_id user_id channel_id charge refund
    [[[text [Htext Hstrip]] [Hne Hprefix]] [Huser Hchannel]]
    Hack Hplaceholder Hcharge Hrefund.
  unfold refund_command, refund_command_try, refund_command_except,
    charge_refund_params in *.
  rewrite Htext. run. rewrite Hstrip, Hne, Hprefix, Hack. run.
  rewrite Hplaceholder. run. rewrite Hcharge, Huser, Hchannel. run.
  rewrite Hrefund. run.
  split; [| split].
  - explore; reflexivity.
  - intros e ->. explore; reflexivity.
  - intros refund_amount e -> Hreceipt. run. rewrite Hreceipt.
    explore; reflexivity.
Qed.

(** The theorem applied to [/refund ch_abc123] when the receipt can no
    longer replace the placeholder. *)
Lemma refund_command_error_after_refund_witness :
  slack_calls
    (run_trace
       (refund_command (stale_response_env (inr (sample_refund 5000)))
          (sample_command "ch_abc123")))
  = [ Ack; Respond processing_message;
      Respond
        (mkResponse "in_channel" (Some true)
           (refund_command_receipt (sample_refund 5000) "ch_abc123" fifty
              (Py.upper "usd")));
      Respond
        (error_response
           (refund_command_error_text "ch_abc123" (PyError "expired_url"))) ].
Proof.
  apply (proj2 (proj2
           (refund_command_error_after_refund
              (stale_response_env (inr (sample_refund 5000)))
              (sample_command "ch_abc123") "ch_abc123" (PStr "U1") (PStr "C1")
              (Charge []) (sample_refund 5000)
              sample_accepted eq_refl eq_refl eq_refl eq_refl)) fifty);
    reflexivity.
Defined.

(** *** [handle_question_submission] *)

(** X10: whatever the payload and the services, the question handler makes
    no call to the processor and never replies through the response channel;
    it sends nothing but the acknowledgement when the body lacks the user's
    id or the view lacks the question, and otherwise posts one message, to
    the submitting user, whose text quotes the submitted question. *)
Theorem question_submission_answers_the_requester_only :
  forall repr (E : env) (body view : dict),
    stripe_calls (run_trace (handle_question_submission repr E body view)) = []
    /\ (slack_calls (run_trace (handle_question_submission repr E body view))
        = [Ack]
        \/ exists user user_id question,
             Py.item body "user" = inr user
             /\ Py.getitem user "id" = inr user_id
             /\ view_value view "question_input" "question" = ret question
             /\ slack_calls
                  (run_trace (handle_question_submission repr E body view))
                = [ Ack;
                    ChatPostMessage user_id (question_response repr question)
                      None ]).
Proof.
  intros repr E body view.
  unfold handle_question_submission, view_value.
  explore; cbn [stripe_calls slack_calls app fst snd];
    (split; [reflexivity|]);
    first
      [ left; reflexivity
      | right; do 3 eexists; repeat split;
        first [reflexivity | eassumption] ].
Qed.

(** *** The prompts and the modals *)

Lemma prefix_append (s t : string) : prefix s (s ++ t) = true.
Proof.
  induction s as [| c s IH]; [destruct t; reflexivity|].
  cbn. destruct (ascii_dec c c) as [_ | Hneq]; [exact IH | now elim Hneq].
Qed.

Lemma contains_of_prefix (sub s : string) :
  prefix sub s = true -> Py.contains sub s = true.
Proof. intros H. destruct s; cbn [Py.contains]; now rewrite H. Qed.

Lemma contains_inside (before sub after : string) :
  Py.contains sub (before ++ sub ++ after) = true.
Proof.
  induction before as [| c before IH].
  - apply contains_of_prefix. exact (prefix_append sub after).
  - cbn [append Py.contains]. rewrite IH. apply orb_true_r.
Qed.

(** X11: [message_hello] never acknowledges and says at most one thing: for a
    message that carries its sender's id, a greeting that mentions this
    sender; for a message without a [user] entry it raises [KeyError] and
    says nothing. *)
Theorem message_hello_mentions_the_sender :
  forall repr (P : Ui.platform) (message : dict),
    (Py.lookup message "user" = None ->
     message_hello repr P message = ([], inl (Py.key_error "user")))
    /\ (forall user,
          Py.lookup message "user" = Some (PStr user) ->
          exists text,
            Ui.calls (fst (message_hello repr P message)) = [Ui.Say text]
            /\ Py.contains ("<@" ++ user ++ ">") text = true).
Proof.
  intros repr P message. unfold message_hello, Py.item. split.
  - intros ->. reflexivity.
  - intros user ->. ui_run. cbn [Py.str].
    exists ("Hey there <@" ++ user ++ ">! 👋"). split.
    + destruct (P _); reflexivity.
    + replace ("Hey there <@" ++ user ++ ">! 👋")
        with ("Hey there " ++ ("<@" ++ user ++ ">") ++ "! 👋")
        by (cbn [append]; now rewrite append_assoc_string).
      apply contains_inside.
Qed.

Lemma handle_ask_question_opens P body trigger_id :
  P Ui.Acknowledge = None ->
  Py.lookup body "trigger_id" = Some trigger_id ->
  Ui.calls (fst (handle_ask_question P body))
  = [Ui.Acknowledge; Ui.ViewsOpen trigger_id question_modal].
Proof.
  intros Hack Htrigger. unfold handle_ask_question, Py.item.
  rewrite Htrigger. ui_run. rewrite Hack. ui_explore; reflexivity.
Qed.

Lemma handle_refund_request_opens P body trigger_id :
  P Ui.Acknowledge = None ->
  Py.lookup body "trigger_id" = Some trigger_id ->
  Ui.calls (fst (handle_refund_request P body))
  = [Ui.Acknowledge; Ui.ViewsOpen trigger_id refund_modal].
Proof.
  intros Hack Htrigger. unfold handle_refund_request, Py.item.
  rewrite Htrigger. ui_run. rewrite Hack. ui_explore; reflexivity.
Qed.

(** X12: once acknowledged, a click handled by [handle_ask_question] or
    [handle_refund_request] whose body carries no [trigger_id] raises
    [KeyError] and opens nothing; with a [trigger_id], the handler opens its
    modal for exactly that trigger and does nothing else. *)
Theorem modal_openers_need_a_trigger :
  forall (P : Ui.platform) (body : dict),
    P Ui.Acknowledge = None ->
    (Py.lookup body "trigger_id" = None ->
     handle_ask_question P body
     = ([(Ui.Acknowledge, None)], inl (Py.key_error "trigger_id"))
     /\ handle_refund_request P body
        = ([(Ui.Acknowledge, None)], inl (Py.key_error "trigger_id")))
    /\ (forall trigger_id,
          Py.lookup body "trigger_id" = Some trigger_id ->
          Ui.calls (fst (handle_ask_question P body))
          = [Ui.Acknowledge; Ui.ViewsOpen trigger_id question_modal]
          /\ Ui.calls (fst (handle_refund_request P body))
             = [Ui.Acknowledge; Ui.ViewsOpen trigger_id refund_modal]).
Proof.
  intros P body Hack. split.
  - unfold handle_ask_question, handle_refund_request, Py.item.
    intros ->. ui_run. rewrite Hack. split; reflexivity.
  - intros trigger_id Htrigger. split.
    + now apply handle_ask_question_opens.
    + now apply handle_refund_request_opens.
Qed.

(** The theorem applied to a click that carries the trigger [T1]. *)
Lemma modal_openers_need_a_trigger_witness :
  Ui.calls (fst (handle_ask_question (fun _ => None)
                   [("trigger_id", PStr "T1")]))
  = [Ui.Acknowledge; Ui.ViewsOpen (PStr "T1") question_modal]
  /\ Ui.calls (fst (handle_refund_request (fun _ => None)
                      [("trigger_id", PStr "T1")]))
     = [Ui.Acknowledge; Ui.ViewsOpen (PStr "T1") refund_modal].
Proof.
  apply (proj2 (modal_openers_need_a_trigger (fun _ => None)
                  [("trigger_id", PStr "T1")] eq_refl)).
  reflexivity.
Defined.

(** X13: when the chat platform delivers, [support_command] answers with its
    prompt, and every button of that prompt is wired: an action listener is
    registered for its action id, and that listener, run on a click that
    carries a trigger, opens a modal whose callback id has a view listener
    registered. *)
Theorem support_buttons_are_wired :
  forall (P : Ui.platform) (command : dict),
    ui_delivers P ->
    exists prompt,
      Ui.calls (fst (support_command P command))
      = [Ui.Acknowledge; Ui.RespondBlocks prompt]
      /\ Forall
           (fun b =>
              exists l opener,
                registered OnAction (Button.action_id b) = Some l
                /\ action_handler P l = Some opener
                /\ forall body trigger_id,
                     Py.lookup body "trigger_id" = Some trigger_id ->
                     exists m l',
                       Ui.calls (fst (opener body))
                       = [Ui.Acknowledge; Ui.ViewsOpen trigger_id m]
                       /\ registered OnView (Modal.callback_id m) = Some l')
           (buttons prompt).
Proof.
  intros P command Hdelivers.
  exists support_blocks. split.
  - unfold support_command. ui_run. rewrite !Hdelivers. reflexivity.
  - cbn [buttons support_blocks flat_map app].
    repeat first [apply Forall_nil | apply Forall_cons];
      do 2 eexists; (split; [reflexivity|]); (split; [reflexivity|]);
      intros body trigger_id Htrigger;
      do 2 eexists;
      (split;
       [ first [ apply handle_ask_question_opens
               | apply handle_refund_request_opens ];
         [apply Hdelivers | exact Htrigger]
       | reflexivity ]).
Qed.

(** The theorem applied to a platform that delivers every call. *)
Lemma support_buttons_are_wired_witness :
  exists prompt,
    Ui.calls (fst (support_command (fun _ => None) []))
    = [Ui.Acknowledge; Ui.RespondBlocks prompt]
    /\ Forall
         (fun b =>
            exists l opener,
              registered OnAction (Button.action_id b) = Some l
              /\ action_handler (fun _ => None) l = Some opener
              /\ forall body trigger_id,
                   Py.lookup body "trigger_id" = Some trigger_id ->
                   exists m l',
                     Ui.calls (fst (opener body))
                     = [Ui.Acknowledge; Ui.ViewsOpen trigger_id m]
                     /\ registered OnView (Modal.callback_id m) = Some l')
         (buttons prompt).
Proof.
  apply (support_buttons_are_wired (fun _ => None) []).
  intros c. reflexivity.
Defined.

(** X14: the modal [handle_refund_request] opens and the reads of
    [handle_refund_submission] fit: the callback id of the modal is the one
    the refund submission listener is registered for, and whatever values
    are submitted, the view the platform reports for this modal gives the
    handler its payment intent, amount and reason under the keys it reads,
    for every body that carries the user's id. *)
Theorem refund_modal_round_trip :
  forall (P : Ui.platform) (body : dict) (trigger_id : pyval),
    ui_delivers P ->
    Py.lookup body "trigger_id" = Some trigger_id ->
    exists m,
      Ui.calls (fst (handle_refund_request P body))
      = [Ui.Acknowledge; Ui.ViewsOpen trigger_id m]
      /\ registered OnView (Modal.callback_id m) = Some HandleRefundSubmission
      /\ forall (submission : dict) (user user_id : pyval)
                (answer : string -> string -> pyval),
           Py.item submission "user" = inr user ->
           Py.getitem user "id" = inr user_id ->
           submitted submission (reported_view m answer) user_id
             (answer "payment_intent_input" "payment_intent_id")
             (answer "amount_input" "amount")
             (answer "reason_input" "reason").
Proof.
  intros P body trigger_id Hdelivers Htrigger.
  exists refund_modal. split; [| split].
  - apply handle_refund_request_opens; [apply Hdelivers | exact Htrigger].
  - reflexivity.
  - intros submission user user_id answer Huser Hid.
    split; [| repeat split].
    exists user. split; assumption.
Qed.

(** The theorem applied to a click that carries the trigger [T1]. *)
Lemma refund_modal_round_trip_witness :
  exists m,
    Ui.calls (fst (handle_refund_request (fun _ => None)
                     [("trigger_id", PStr "T1")]))
    = [Ui.Acknowledge; Ui.ViewsOpen (PStr "T1") m]
    /\ registered OnView (Modal.callback_id m) = Some HandleRefundSubmission
    /\ forall (submission : dict) (user user_id : pyval)
              (answer : string -> string -> pyval),
         Py.item submission "user" = inr user ->
         Py.getitem user "id" = inr user_id ->
         submitted submission (reported_view m answer) user_id
           (answer "payment_intent_input" "payment_intent_id")
           (answer "amount_input" "amount")
           (answer "reason_input" "reason").
Proof.
  apply (refund_modal_round_trip (fun _ => None)
           [("trigger_id", PStr "T1")] (PStr "T1")).
  - intros c. reflexivity.
  - reflexivity.
Defined.

(** X15: the modal [handle_ask_question] opens and
    [handle_question_submission] fit: the callback id of the modal is the one
    the question listener is registered for, and on the view the platform
    reports for this modal the acknowledged handler posts to the submitting
    user one message that quotes the submitted question. *)
Theorem question_modal_round_trip :
  forall repr (P : Ui.platform) (E : env) (body : dict) (trigger_id : pyval),
    ui_delivers P ->
    slack E Ack = None ->
    Py.lookup body "trigger_id" = Some trigger_id ->
    exists m,
      Ui.calls (fst (handle_ask_question P body))
      = [Ui.Acknowledge; Ui.ViewsOpen trigger_id m]
      /\ registered OnView (Modal.callback_id m)
         = Some HandleQuestionSubmission
      /\ forall (submission : dict) (user user_id : pyval)
                (answer : string -> string -> pyval),
           Py.item submission "user" = inr user ->
           Py.getitem user "id" = inr user_id ->
           calls (run_trace
                    (handle_question_submission repr E submission
                       (reported_view m answer)))
           = [ Slack Ack;
               Slack (ChatPostMessage user_id
                        (question_response repr
                           (answer "question_input" "question"))
                        None) ].
Proof.
  intros repr P E body trigger_id Hdelivers Hack Htrigger.
  exists question_modal. split; [| split].
  - apply handle_ask_question_opens; [apply Hdelivers | exact Htrigger].
  - reflexivity.
  - intros submission user user_id answer Huser Hid.
    unfold handle_question_submission, view_value.
    rewrite Huser. run. rewrite Hack, Hid. run.
    cbn [reported_view question_modal Modal.blocks map Py.item Py.lookup
         Py.getitem String.eqb Ascii.eqb Bool.eqb Input.block_id
         Input.action_id]. crack; reflexivity.
Qed.

(** The theorem applied to a click that carries the trigger [T1] and to a
    chat platform that delivers every call. *)
Lemma question_modal_round_trip_witness :
  exists m,
    Ui.calls (fst (handle_ask_question (fun _ => None)
                     [("trigger_id", PStr "T1")]))
    = [Ui.Acknowledge; Ui.ViewsOpen (PStr "T1") m]
    /\ registered OnView (Modal.callback_id m) = Some HandleQuestionSubmission
    /\ forall (submission : dict) (user user_id : pyval)
              (answer : string -> string -> pyval),
         Py.item submission "user" = inr user ->
         Py.getitem user "id" = inr user_id ->
         calls (run_trace
                  (handle_question_submission sample_repr
                     (sample_env "sk_test_1" (inr (sample_refund 5000)))
                     submission (reported_view m answer)))
         = [ Slack Ack;
             Slack (ChatPostMessage user_id
                      (question_response sample_repr
                         (answer "question_input" "question"))
                      None) ].
Proof.
  apply (question_modal_round_trip sample_repr (fun _ => None)
           (sample_env "sk_test_1" (inr (sample_refund 5000)))
           [("trigger_id", PStr "T1")] (PStr "T1")).
  - intros c. reflexivity.
  - reflexivity.
  - reflexivity.
Defined.



(** X17: [handle_question_submission] guards nothing: it returns normally
    exactly when the acknowledgement is delivered, the body carries the
    user's id, the view carries the question and the reply is delivered; in
    every other run an exception leaves the handler. *)
Theorem question_submission_returns_iff_all_succeed :
  forall repr (E : env) (body view : dict),
    run_result (handle_question_submission repr E body view) = inr tt
    <-> (slack E Ack = None
         /\ exists user user_id question,
              Py.item body "user" = inr user
              /\ Py.getitem user "id" = inr user_id
              /\ view_value view "question_input" "question" = ret question
              /\ slack E (ChatPostMessage user_id
                            (question_response repr question) None)
                 = None).
Proof.
  intros repr E body view. split.
  - unfold handle_question_submission, view_value.
    explore;
      (let H := fresh "H" in
       intros H;
       first
         [ discriminate H
         | split; [reflexivity|];
           do 3 eexists; repeat split; first [reflexivity | eassumption] ]).
  - intros [Hack [user [user_id [question [Huser [Hid [Hq Hpost]]]]]]].
    unfold handle_question_submission.
    run. rewrite Hack. run. rewrite Huser. run. rewrite Hid. run.
    rewrite Hq. run. rewrite Hpost. reflexivity.
Qed.
